(** * BaseCounter: a shallow embedding of [src/lib/BaseCounter.js]

    The class [BaseCounter] resolves user options against a table of
    defaults, lists a user's repositories page by page through an HTTP
    client, and folds a per-repository commit count into two totals.

    The JavaScript data the class handles is modelled by a small universe of
    values (primitives, arrays, plain data objects).  Objects used as maps
    are finite maps from property names to values.  The one object the class
    mutates, the page-parameter object handed to [getRepos], lives in an
    explicit store that every operation threads through, together with the
    log of HTTP requests issued and the lines written to the console.

    Conventions.
    - Numbers are the integers or NaN: counters, lengths and time values in
      milliseconds.  Fractions, infinities and rounding above 2^53 are not
      represented.
    - Strings are byte strings; lengths and whitespace follow ASCII.
    - Functions are not values: only data properties of objects are
      represented, so members inherited from a prototype other than
      [length] and indices read as [undefined].  Objects are plain objects:
      [hasOwnProperty] is found on their prototype, unless an own property
      of that name hides it, and then the call throws.
    - [await] is sequencing: the class has one flow of control. *)

From Stdlib Require Import ZArith List Ascii String Bool Lia.
From stdpp Require Import base option list gmap strings fin_maps pretty.

Local Open Scope Z_scope.
Local Open Scope string_scope.
Local Open Scope list_scope.

(** ** Values *)

Inductive num : Type :=
  | NaN : num
  | Int : Z -> num.

#[warnings="-register-all"]
Inductive value : Type :=
  | VUndefined : value
  | VNull : value
  | VBool : bool -> value
  | VNum : num -> value
  | VStr : string -> value
  | VArr : list value -> value
  | VObj : gmap string value -> value.

Definition VInt (z : Z) : value := VNum (Int z).

(** [typeof v] *)
Definition typeof (v : value) : string :=
  match v with
  | VUndefined => "undefined"
  | VNull => "object"
  | VBool _ => "boolean"
  | VNum _ => "number"
  | VStr _ => "string"
  | VArr _ => "object"
  | VObj _ => "object"
  end.

(** ToBoolean: what [if (v)], [!v], [a && b] and [a || b] test. *)
Definition truthy (v : value) : bool :=
  match v with
  | VUndefined | VNull => false
  | VBool b => b
  | VNum NaN => false
  | VNum (Int z) => negb (Z.eqb z 0)
  | VStr s => negb (String.eqb s "")
  | VArr _ | VObj _ => true
  end.

(** [a || b] on values *)
Definition js_or (a b : value) : value := if truthy a then a else b.

(** Relational operators on numbers: every comparison with NaN is false. *)
Definition num_lt (a b : num) : bool :=
  match a, b with
  | Int x, Int y => Z.ltb x y
  | _, _ => false
  end.

Definition num_ge (a b : num) : bool :=
  match a, b with
  | Int x, Int y => Z.leb y x
  | _, _ => false
  end.

(** ** Completions

    A call either returns, or throws a value, or lies outside what the
    development covers (the recursion budget of the model ran out, or the
    call took a path through the language that is not represented). *)

Inductive stuck : Type :=
  | OutOfFuel : stuck
  | OutsideModel : stuck.

Inductive completion (A : Type) : Type :=
  | Normal : A -> completion A
  | Throw : value -> completion A
  | Stuck : stuck -> completion A.

Arguments Normal {A} _.
Arguments Throw {A} _.
Arguments Stuck {A} _.

Definition TypeError (msg : string) : value :=
  VObj {[ "message" := VStr msg ]}.

Definition cbind {A B} (c : completion A) (k : A -> completion B) : completion B :=
  match c with
  | Normal a => k a
  | Throw e => Throw e
  | Stuck s => Stuck s
  end.

(** ** Property access *)

Definition digit_of (c : ascii) : option nat :=
  let n := nat_of_ascii c in
  if (Nat.leb 48 n && Nat.leb n 57)%bool then Some (n - 48)%nat else None.

Fixpoint digits_value (acc : nat) (s : string) : option nat :=
  match s with
  | EmptyString => Some acc
  | String c s' =>
      match digit_of c with
      | Some d => digits_value (10 * acc + d)%nat s'
      | None => None
      end
  end.

(** A canonical array index: decimal digits, no leading zero unless the
    string is "0". *)
Definition parse_index (k : string) : option nat :=
  match k with
  | EmptyString => None
  | String "0" EmptyString => Some 0%nat
  | String "0" _ => None
  | _ => digits_value 0 k
  end.

Definition char_at (s : string) (i : nat) : value :=
  match String.get i s with
  | Some c => VStr (String c EmptyString)
  | None => VUndefined
  end.

(** [v[k]] and [v.k].  Reading a property of [null] or [undefined] throws a
    TypeError; every other value can be read from. *)
Definition get_prop (v : value) (k : string) : completion value :=
  match v with
  | VUndefined | VNull =>
      Throw (TypeError ("Cannot read property '" +:+ k +:+ "' of " +:+
                        (if v is VNull then "null" else "undefined")))
  | VBool _ | VNum _ => Normal VUndefined
  | VStr s =>
      if String.eqb k "length" then Normal (VInt (Z.of_nat (String.length s)))
      else Normal (match parse_index k with
                   | Some i => char_at s i
                   | None => VUndefined
                   end)
  | VArr xs =>
      if String.eqb k "length" then Normal (VInt (Z.of_nat (length xs)))
      else Normal (match parse_index k with
                   | Some i => default VUndefined (xs !! i)
                   | None => VUndefined
                   end)
  | VObj m => Normal (default VUndefined (m !! k))
  end.

(** ** Conversions of the language runtime

    Three conversions are fixed by the language but not by this repository:
    parsing a date string, reading a string as a number, and turning an
    array or an object into a primitive (which runs [toString]/[join] and
    can throw).  They are taken as an interface. *)

Class Runtime : Type := {
  (** [Date.parse]: the time value in milliseconds, NaN when unparsable *)
  Date_parse : string -> num;
  (** ToNumber on strings *)
  StringToNumber : string -> num;
  (** ToPrimitive on arrays and objects, which yields a string or throws *)
  ObjectToString : value -> completion string
}.

Definition bool_to_Z (b : bool) : Z := if b then 1 else 0.

(** TimeClip: time values beyond 8.64e15 ms are invalid dates. *)
Definition time_clip (n : num) : num :=
  match n with
  | NaN => NaN
  | Int t => if Z.leb (Z.abs t) 8640000000000000 then Int t else NaN
  end.

Definition num_succ (n : num) : num :=
  match n with
  | NaN => NaN
  | Int z => Int (z + 1)
  end.

Definition num_pred (n : num) : num :=
  match n with
  | NaN => NaN
  | Int z => Int (z - 1)
  end.

(** ToString on numbers, which gives a property key from an index *)
Definition num_to_string (n : num) : string :=
  match n with
  | NaN => "NaN"
  | Int z => pretty z
  end.

Section Conversions.
Context `{RT : Runtime}.

(** ToNumber *)
Definition to_number (v : value) : completion num :=
  match v with
  | VUndefined => Normal NaN
  | VNull => Normal (Int 0)
  | VBool b => Normal (Int (bool_to_Z b))
  | VNum n => Normal n
  | VStr s => Normal (StringToNumber s)
  | VArr _ | VObj _ => cbind (ObjectToString v) (fun s => Normal (StringToNumber s))
  end.

(** [new Date(v)], as the time value of the date object built: a string is
    parsed, anything else is converted to a number and clipped. *)
Definition new_Date (v : value) : completion num :=
  match v with
  | VStr s => Normal (Date_parse s)
  | VArr _ | VObj _ => cbind (ObjectToString v) (fun s => Normal (Date_parse s))
  | _ => cbind (to_number v) (fun n => Normal (time_clip n))
  end.
End Conversions.

(** [String.prototype.trim], on the ASCII white space and line terminators *)
Definition is_ws (c : ascii) : bool :=
  let n := nat_of_ascii c in
  (Nat.eqb n 9 || Nat.eqb n 10 || Nat.eqb n 11 || Nat.eqb n 12 || Nat.eqb n 13
   || Nat.eqb n 32)%bool.

Fixpoint trim_start (s : string) : string :=
  match s with
  | EmptyString => EmptyString
  | String c s' => if is_ws c then trim_start s' else s
  end.

Fixpoint trim_end (s : string) : string :=
  match s with
  | EmptyString => EmptyString
  | String c s' =>
      let t := trim_end s' in
      if (is_ws c && String.eqb t "")%bool then EmptyString else String c t
  end.

Definition js_trim (s : string) : string := trim_end (trim_start s).

(** ** The store and the monad of the class's methods *)

Record World : Type := mkWorld {
  (** the page-parameter object, shared by reference between the instance
      ([this.reposParams]) and every call of [getRepos] *)
  params : gmap string value;
  (** the option objects passed to the HTTP client so far, oldest first *)
  requests : list (gmap string value);
  (** the lines written with [console.log], oldest first *)
  console : list (list value)
}.

Definition M (A : Type) : Type := World -> completion A * World.

#[global] Instance M_ret : MRet M := fun A a w => (Normal a, w).

#[global] Instance M_bind : MBind M := fun A B k m w =>
  match m w with
  | (Normal a, w') => k a w'
  | (Throw e, w') => (Throw e, w')
  | (Stuck s, w') => (Stuck s, w')
  end.

(** A pure computation run inside a method *)
Definition lift {A} (c : completion A) : M A := fun w => (c, w).

Definition stuck_at {A} (s : stuck) : M A := fun w => (Stuck s, w).

(** [try { body } catch (error) { handler }] *)
Definition try_catch {A} (body : M A) (handler : value -> M A) : M A :=
  fun w =>
    match body w with
    | (Throw e, w') => handler e w'
    | r => r
    end.

(** The outcome of a request: the promise of the HTTP client is fulfilled
    with a response or rejected with an error. *)
Inductive outcome : Type :=
  | Resolved (response : value)
  | Rejected (error : value).

(** ** The instance *)

Record Counter : Type := mkCounter {
  className : string;
  username : string;
  accessToken : string;
  userEmailAddresses : value;
  userNames : value;
  fromDate : string;
  untilDate : string;
  minCommits : num;
  itemsPerPage : Z;
  reposEndpoint : string;
  repoUpdatedDateField : string
}.

Record Totals : Type := mkTotals {
  projects : Z;
  commits : Z
}.

(** ** Option resolution (the constructor, [getOptionValue],
       [getDefaultOptions]) *)

(** [obj.hasOwnProperty(k)], called on the object itself as lines 24 and
    42 do; [name] is how the source names the object.  The method comes
    from the prototype.  When the object has an own property called
    [hasOwnProperty], that property is what is called; its value is data,
    not a function, so the call throws a TypeError. *)
Definition hasOwnProperty (name : string) (obj : gmap string value)
    (k : string) : completion bool :=
  match obj !! "hasOwnProperty" with
  | Some _ => Throw (TypeError (name +:+ ".hasOwnProperty is not a function"))
  | None => Normal (bool_decide (is_Some (obj !! k)))
  end.

Definition getOptionValue (options : gmap string value) (option : string)
    (defaultValue : value) : completion value :=
  cbind (hasOwnProperty "options" options option) (fun own =>
  if (own && String.eqb (typeof (default VUndefined (options !! option)))
                        (typeof defaultValue))%bool
  then Normal (default VUndefined (options !! option))
  else Normal defaultValue).

Definition getDefaultOptions : gmap string value :=
  {[ "username" := VStr "";
     "accessToken" := VStr "";
     "userEmailAddresses" := VArr [];
     "userNames" := VArr [];
     "fromDate" := VStr "";
     "untilDate" := VStr "";
     "minCommits" := VInt 1 ]}.

(** One turn of the loop of the constructor (lines 23-28): [this] is the
    instance built so far. *)
Definition resolve_option (defaultOptions options : gmap string value)
    (option : string) (defaultValue : value)
    (acc : completion (gmap string value)) : completion (gmap string value) :=
  cbind acc (fun this =>
  cbind (hasOwnProperty "defaultOptions" defaultOptions option) (fun own =>
  if (own : bool) then
    cbind (getOptionValue options option defaultValue) (fun v =>
    Normal (<[option := v]> this))
  else Normal this)).

(** The loop of the constructor: one property on the instance for each
    key of the defaults. *)
Definition resolveOptions (defaultOptions options : gmap string value)
    : completion (gmap string value) :=
  map_fold (resolve_option defaultOptions options) (Normal ∅) defaultOptions.

Definition as_string (v : value) : string :=
  match v with VStr s => s | _ => "" end.

Definition as_num (v : value) : num :=
  match v with VNum n => n | _ => NaN end.

Definition field (this : gmap string value) (k : string) : value :=
  default VUndefined (this !! k).

(** [new BaseCounter(options)]: the instance, whose page-parameter object
    starts as the empty object. *)
Definition BaseCounter_new (options : gmap string value) : completion Counter :=
  cbind (resolveOptions getDefaultOptions options) (fun this =>
  Normal
    {| className := "BaseCounter";
       username := as_string (field this "username");
       accessToken := as_string (field this "accessToken");
       userEmailAddresses := field this "userEmailAddresses";
       userNames := field this "userNames";
       fromDate := as_string (field this "fromDate");
       untilDate := as_string (field this "untilDate");
       minCommits := as_num (field this "minCommits");
       itemsPerPage := 100;
       reposEndpoint := "";
       repoUpdatedDateField := "" |}).

(** ** The methods *)

Section Methods.
Context `{RT : Runtime}.

(** The HTTP client ([axios]), as a deterministic function of the requests
    issued before and of the option object of the present request. *)
Variable axios : list (gmap string value) -> gmap string value -> outcome.

(** The per-repository counting strategy, which each platform's class
    overrides; the base class returns 0. *)
Variable getUsersRepoCommitsCountAll : value -> Z.

(** [await axios(options)]: the request is recorded; a rejected promise
    throws at the [await]. *)
Definition await_axios (options : gmap string value) : M value :=
  fun w =>
    let w' := {| params := params w;
                 requests := requests w ++ [options];
                 console := console w |} in
    match axios (requests w) options with
    | Resolved response => (Normal response, w')
    | Rejected error => (Throw error, w')
    end.

(** [log(...messages)] *)
Definition log (this : Counter) (messages : list value) : M unit :=
  fun w =>
    (Normal tt,
     {| params := params w;
        requests := requests w;
        console := console w ++
                   [VStr ("   " +:+ className this +:+ " -") :: messages] |}).

(** A parameter with the default value [{}]: the default replaces
    [undefined] only. *)
Definition or_empty_object (v : value) : value :=
  match v with
  | VUndefined => VObj ∅
  | _ => v
  end.

(** The option object of a request; the properties of [extraOptions] are
    spread last and win. *)
Definition request_options (this : Counter) (endpoint : string)
    (params : value) (extraOptions : gmap string value) : gmap string value :=
  extraOptions ∪
  {[ "method" := VStr "GET";
     "url" := VStr endpoint;
     "params" := or_empty_object params;
     "headers" := VObj {[ "Content-Type" := VStr "application/json" ]};
     "auth" := VObj {[ "username" := VStr (username this);
                       "password" := VStr (accessToken this) ]} ]}.

(** [error && error.response && error.response.data ? error.response.data : ""] *)
Definition errorString_of (error : value) : completion value :=
  cbind (if truthy error then get_prop error "response" else Normal error)
    (fun t1 =>
  cbind (if truthy t1
         then cbind (get_prop error "response") (fun r => get_prop r "data")
         else Normal t1)
    (fun t2 =>
  if truthy t2
  then cbind (get_prop error "response") (fun r => get_prop r "data")
  else Normal (VStr ""))).

Definition getFromAPI (this : Counter) (endpoint : string) (params : value)
    (extraOptions : gmap string value) : M value :=
  let options := request_options this endpoint params extraOptions in
  try_catch
    (response ← await_axios options;
     data ← lift (get_prop response "data");
     mret (js_or data (VBool false)))
    (fun error =>
       errorString ← lift (errorString_of error);
       _ ← log this [VStr ("Failed call to " +:+ endpoint +:+ " with error:");
                     errorString];
       mret (VBool false)).

(** Lines 123-135 of [getRepos]: whether the method returns early because
    the last repo of the page was updated before [fromDate].  [fromDate] is
    [None] for [null]/[undefined] and [Some t] for a date object of time
    value [t]; a date object is truthy even when its time value is NaN. *)
Definition date_cutoff (this : Counter) (fromDate : option num)
    (repos : list value) : completion bool :=
  let count := Z.of_nat (length repos) in
  match fromDate with
  | Some from =>
      if truthy (VInt count) then
        let lastRepo := default VUndefined (repos !! (length repos - 1)%nat) in
        cbind (get_prop lastRepo (repoUpdatedDateField this)) (fun updated =>
        cbind (new_Date updated) (fun repoUpdatedDate =>
        Normal (num_lt repoUpdatedDate from)))
      else Normal false
  | None => Normal false
  end.

(** [params.page++] on the shared page-parameter object *)
Definition increment_page : M unit :=
  fun w =>
    match to_number (default VUndefined (params w !! "page")) with
    | Normal n =>
        (Normal tt,
         {| params := <["page" := VNum (num_succ n)]> (params w);
            requests := requests w;
            console := console w |})
    | Throw e => (Throw e, w)
    | Stuck s => (Stuck s, w)
    end.

(** [repos.concat(newRepos)] on an array: an array argument is spread, any
    other value is appended as one element. *)
Definition js_concat (repos : list value) (newRepos : value) : value :=
  match newRepos with
  | VArr more => VArr (repos ++ more)
  | v => VArr (repos ++ [v])
  end.

(** Lines 137-144 of [getRepos]: a full page asks for the next one, whose
    repos are appended; [next] is the recursive call. *)
Definition next_page (next : M value) (this : Counter) (repos : list value)
    : M value :=
  if Z.eqb (Z.of_nat (length repos)) (itemsPerPage this) then
    _ ← increment_page;
    newRepos ← next;
    mret (js_concat repos newRepos)
  else mret (VArr repos).

(** Lines 121-144 of [getRepos], for a body that is an array *)
Definition page_result (next : M value) (this : Counter)
    (fromDate : option num) (repos : list value) : M value :=
  cut ← lift (date_cutoff this fromDate repos);
  if (cut : bool) then mret (VArr repos) else next_page next this repos.

(** Lines 123-135 of [getRepos] for a body that is an object with a
    [length] property [count]: the last repo is the property whose key is
    [count - 1] written as a string, [undefined] when there is none. *)
Definition object_date_cutoff (this : Counter) (fromDate : option num)
    (body : gmap string value) (count : value) : completion bool :=
  match fromDate with
  | Some from =>
      if truthy count then
        cbind (to_number count) (fun n =>
        let lastRepo :=
          default VUndefined (body !! num_to_string (num_pred n)) in
        cbind (get_prop lastRepo (repoUpdatedDateField this)) (fun updated =>
        cbind (new_Date updated) (fun repoUpdatedDate =>
        Normal (num_lt repoUpdatedDate from))))
      else Normal false
  | None => Normal false
  end.

(** Lines 137-144 of [getRepos] for such a body.  [count === itemsPerPage]
    holds for that very number only.  An object has no [concat] method, so
    once the next pages are back the call [repos.concat(newRepos)] throws. *)
Definition object_next_page (next : M value) (this : Counter)
    (body : gmap string value) (count : value) : M value :=
  if match count with
     | VNum (Int n) => Z.eqb n (itemsPerPage this)
     | _ => false
     end
  then
    _ ← increment_page;
    newRepos ← next;
    lift (Throw (TypeError "repos.concat is not a function"))
  else mret (VObj body).

Definition object_result (next : M value) (this : Counter)
    (fromDate : option num) (body : gmap string value) (count : value)
    : M value :=
  cut ← lift (object_date_cutoff this fromDate body count);
  if (cut : bool) then mret (VObj body)
  else object_next_page next this body count.

(** [getRepos(endpoint, params, fromDate)], where [params] is the shared
    page-parameter object of the store.  The recursion of the source has no
    bound of its own; [fuel] bounds the number of pages fetched.

    A truthy body that is a boolean, a number or an object without a
    [length] property has [undefined] for its [length]: both tests fail and
    it is returned as it is.  A truthy body that is a string is outside the
    model. *)
Fixpoint getRepos (fuel : nat) (this : Counter) (endpoint : string)
    (fromDate : option num) : M value :=
  match fuel with
  | O => stuck_at OutOfFuel
  | S fuel' =>
      repos ← (fun w => getFromAPI this endpoint (VObj (params w)) ∅ w);
      if negb (truthy repos) then mret (VArr [])
      else
        match repos with
        | VArr items =>
            page_result (getRepos fuel' this endpoint fromDate) this fromDate items
        | VBool _ | VNum _ => mret repos
        | VObj body =>
            match body !! "length" with
            | None => mret repos
            | Some count =>
                object_result (getRepos fuel' this endpoint fromDate)
                  this fromDate body count
            end
        | _ => stuck_at OutsideModel
        end
  end.

(** [getAllRepos()]: [this.fromDate] is a string on every instance, so the
    test [!= null] holds. *)
Definition getAllRepos (fuel : nat) (this : Counter) : M value :=
  if negb (String.eqb (js_trim (fromDate this)) "") then
    fromDateObj ← lift (new_Date (VStr (fromDate this)));
    getRepos fuel this (reposEndpoint this) (Some fromDateObj)
  else
    getRepos fuel this (reposEndpoint this) None.

(** The loop of [get()], with its two running counts *)
Fixpoint count_loop (this : Counter) (repos : list value)
    (usersProjectsCount usersCommitsCount : Z) : Totals :=
  match repos with
  | [] => {| projects := usersProjectsCount; commits := usersCommitsCount |}
  | repo :: rest =>
      let repoCommitsCount := getUsersRepoCommitsCountAll repo in
      if Z.ltb 0 repoCommitsCount then
        count_loop this rest
          (if num_ge (Int repoCommitsCount) (minCommits this)
           then usersProjectsCount + 1 else usersProjectsCount)
          (usersCommitsCount + repoCommitsCount)
      else count_loop this rest usersProjectsCount usersCommitsCount
  end.

(** The repos that the loop of [get()] reads off an object whose [length]
    converts to [n]: the properties "0", "1", ... below [n], [undefined]
    where there is none. *)
Definition object_items (body : gmap string value) (n : num) : list value :=
  match n with
  | NaN => []
  | Int bound =>
      map (fun i => default VUndefined (body !! pretty (Z.of_nat i)))
          (seq 0 (Z.to_nat bound))
  end.

(** [get()].  When [getAllRepos] hands back a boolean, a number or an
    object without a [length] property, the bound of the loop is
    [undefined] and the loop does not run.  When it hands back an object
    with a [length] property, [i < repos.length] converts that property to
    a number.  A string is outside the model. *)
Definition get (fuel : nat) (this : Counter) : M Totals :=
  repos ← getAllRepos fuel this;
  match repos with
  | VArr items => mret (count_loop this items 0 0)
  | VBool _ | VNum _ => mret {| projects := 0; commits := 0 |}
  | VObj body =>
      match body !! "length" with
      | None => mret {| projects := 0; commits := 0 |}
      | Some count =>
          n ← lift (to_number count);
          mret (count_loop this (object_items body n) 0 0)
      end
  | _ => stuck_at OutsideModel
  end.

End Methods.

(** ** What the totals should be

    The two totals, stated over the list of per-repository counts. *)

Definition Zsum (l : list Z) : Z := fold_right Z.add 0 l.

Definition is_active (n : Z) : bool := Z.ltb 0 n.

Definition is_project (minCommits : num) (n : Z) : bool :=
  (Z.ltb 0 n && num_ge (Int n) minCommits)%bool.

Definition expected_totals (minCommits : num) (counts : list Z) : Totals :=
  {| projects := Z.of_nat (length (List.filter (is_project minCommits) counts));
     commits := Zsum (List.filter is_active counts) |}.

(** The value that resolution gives an option when no call throws: the
    user's when present with the [typeof] of the default, the default
    otherwise. *)
Definition option_choice (options : gmap string value) (option : string)
    (defaultValue : value) : value :=
  match options !! option with
  | Some v => if String.eqb (typeof v) (typeof defaultValue) then v else defaultValue
  | None => defaultValue
  end.

Definition resolved_options (defaultOptions options : gmap string value)
    : gmap string value :=
  map_imap (fun option defaultValue =>
              Some (option_choice options option defaultValue)) defaultOptions.

(** The page-parameter object after [n] executions of [params.page++] that
    did not throw. *)
Definition bump_page `{RT : Runtime} (m : gmap string value) : gmap string value :=
  match to_number (default VUndefined (m !! "page")) with
  | Normal n => <["page" := VNum (num_succ n)]> m
  | _ => m
  end.

(** The world right after one request with option object [options]. *)
Definition after_request (w : World) (options : gmap string value) : World :=
  {| params := params w;
     requests := requests w ++ [options];
     console := console w |}.

(** The world after a failed call was logged. *)
Definition after_failure (this : Counter) (endpoint : string) (w : World)
    (options : gmap string value) (errorString : value) : World :=
  {| params := params w;
     requests := requests w ++ [options];
     console := console w ++
                [[VStr ("   " +:+ className this +:+ " -");
                  VStr ("Failed call to " +:+ endpoint +:+ " with error:");
                  errorString]] |}.

(** The payload that the diagnostic shows for a caught error: the [data] of
    its [response] when both are truthy, the empty string otherwise. *)
Definition error_payload (error : value) : value :=
  match error with
  | VObj e =>
      match e !! "response" with
      | Some response =>
          if truthy response then
            match get_prop response "data" with
            | Normal data => if truthy data then data else VStr ""
            | _ => VStr ""
            end
          else VStr ""
      | None => VStr ""
      end
  | _ => VStr ""
  end.

(** A body that is empty or null: [null], [undefined] or the empty
    string. *)
Definition empty_or_null (body : value) : bool :=
  match body with
  | VNull | VUndefined => true
  | VStr s => String.eqb s ""
  | _ => false
  end.

(** What the accessor returns on success when read literally: the body,
    except that an empty or null body gives [false]. *)
Definition body_or_sentinel (body : value) : value :=
  if empty_or_null body then VBool false else body.

(** The request for page [q]: the option object built from the page
    parameters [m] with [page] set to [q]. *)
Definition page_request (this : Counter) (endpoint : string)
    (m : gmap string value) (q : Z) : gmap string value :=
  request_options this endpoint (VObj (<["page" := VInt q]> m)) ∅.

(** The requests for the [k] pages from page [p] on, in order. *)
Definition page_requests (this : Counter) (endpoint : string)
    (m : gmap string value) (p : Z) (k : nat) : list (gmap string value) :=
  map (fun i => page_request this endpoint m (p + Z.of_nat i)) (seq 0 k).

(** The store whose page parameters are [m] with [page] set to [q]. *)
Definition world_at (m : gmap string value) (q : Z)
    (h : list (gmap string value)) (c : list (list value)) : World :=
  {| params := <["page" := VInt q]> m; requests := h; console := c |}.

(** ** A runtime, a platform and HTTP clients to run the model on

    [sample_runtime] implements a fragment of each conversion: dates of the
    form YYYY-MM-DD (which the language reads as midnight UTC), strings of
    decimal digits, and the primitive of a plain object or an empty array.
    Strings outside the fragment are not recognised by this instance. *)

Definition days_from_civil (y m d : Z) : Z :=
  let y' := if Z.leb m 2 then y - 1 else y in
  let era := y' / 400 in
  let yoe := y' - era * 400 in
  let mp := if Z.ltb 2 m then m - 3 else m + 9 in
  let doy := (153 * mp + 2) / 5 + d - 1 in
  let doe := yoe * 365 + yoe / 4 - yoe / 100 + doy in
  era * 146097 + doe - 719468.

Definition is_leap (y : Z) : bool :=
  (Z.eqb (y mod 4) 0 && (negb (Z.eqb (y mod 100) 0) || Z.eqb (y mod 400) 0))%bool.

Definition days_in_month (y m : Z) : Z :=
  if Z.eqb m 2 then (if is_leap y then 29 else 28)
  else if (Z.eqb m 4 || Z.eqb m 6 || Z.eqb m 9 || Z.eqb m 11)%bool then 30
  else 31.

Definition iso_date_parse (s : string) : num :=
  if Nat.eqb (String.length s) 10 then
    match digits_value 0 (substring 0 4 s), String.get 4 s,
          digits_value 0 (substring 5 2 s), String.get 7 s,
          digits_value 0 (substring 8 2 s) with
    | Some y, Some "-"%char, Some m, Some "-"%char, Some d =>
        let y := Z.of_nat y in
        let m := Z.of_nat m in
        let d := Z.of_nat d in
        if (Z.leb 1 m && Z.leb m 12 && Z.leb 1 d && Z.leb d (days_in_month y m))%bool
        then Int (86400000 * days_from_civil y m d)
        else NaN
    | _, _, _, _, _ => NaN
    end
  else NaN.

Definition decimal_literal (s : string) : num :=
  match digits_value 0 s with
  | Some n => Int (Z.of_nat n)
  | None => NaN
  end.

Definition plain_to_string (v : value) : completion string :=
  match v with
  | VObj m =>
      match m !! "toString" with
      | Some _ => Throw (TypeError "Cannot convert object to primitive value")
      | None => Normal "[object Object]"
      end
  | VArr [] => Normal ""
  | _ => Stuck OutsideModel
  end.

Definition sample_runtime : Runtime :=
  {| Date_parse := iso_date_parse;
     StringToNumber := decimal_literal;
     ObjectToString := plain_to_string |}.

(** A platform in the style of the classes that extend [BaseCounter]. *)
Definition sample_counter (fromDate : string) (minCommits : Z) : Counter :=
  {| className := "SampleCounter";
     username := "octo";
     accessToken := "token";
     userEmailAddresses := VArr [VStr "octo@example.org"];
     userNames := VArr [VStr "Octo"];
     fromDate := fromDate;
     untilDate := "";
     minCommits := Int minCommits;
     itemsPerPage := 100;
     reposEndpoint := "https://example.org/api/repos";
     repoUpdatedDateField := "updated_at" |}.

Definition sample_repo (updated_at : string) (commitCount : Z) : value :=
  VObj {[ "updated_at" := VStr updated_at; "commits" := VInt commitCount ]}.

(** A counting strategy that reads the count off the repo record. *)
Definition commits_field (repo : value) : Z :=
  match get_prop repo "commits" with
  | Normal (VNum (Int n)) => n
  | _ => 0
  end.

Definition initial_world (firstPage : Z) : World :=
  {| params := {[ "page" := VInt firstPage; "sort" := VStr "updated" ]};
     requests := [];
     console := [] |}.

Definition ok_response (data : value) : value :=
  VObj {[ "status" := VInt 200; "data" := data ]}.

Definition network_error : value :=
  VObj {[ "message" := VStr "Network Error" ]}.

Definition page_of (options : gmap string value) : option Z :=
  match options !! "params" with
  | Some (VObj p) =>
      match p !! "page" with
      | Some (VNum (Int n)) => Some n
      | _ => None
      end
  | _ => None
  end.

(** A client that answers a request for page [n] (counted from 1) with the
    [n]-th of [pages], whatever was requested before: a fixed function of the
    request. *)
Definition paged_api (pages : list (list value))
    : list (gmap string value) -> gmap string value -> outcome :=
  fun _ options =>
    match page_of options with
    | Some n =>
        if Z.leb 1 n
        then Resolved (ok_response (VArr (default [] (pages !! Z.to_nat (n - 1)))))
        else Rejected network_error
    | None => Rejected network_error
    end.

(** A client that rejects every request. *)
Definition failing_api : list (gmap string value) -> gmap string value -> outcome :=
  fun _ _ => Rejected network_error.

(** A client that answers every request with the same response. *)
Definition constant_api (response : value)
    : list (gmap string value) -> gmap string value -> outcome :=
  fun _ _ => Resolved response.

Definition full_page (updated_at : string) : list value :=
  replicate 100 (sample_repo updated_at 1).

Definition short_page (updated_at : string) : list value :=
  replicate 37 (sample_repo updated_at 1).

(** [get()] followed by [get()] on the same instance *)
Definition get_twice `{RT : Runtime}
    (axios : list (gmap string value) -> gmap string value -> outcome)
    (strategy : value -> Z) (fuel : nat) (this : Counter)
    : M (Totals * Totals) :=
  first ← get axios strategy fuel this;
  second ← get axios strategy fuel this;
  mret (first, second).

Definition repos_length (v : completion value) : option nat :=
  match v with
  | Normal (VArr items) => Some (length items)
  | _ => None
  end.

Definition three_repos : list value :=
  [sample_repo "2019-05-01" 0; sample_repo "2019-04-01" 5;
   sample_repo "2019-03-01" 2].

Definition two_idle_repos : list value :=
  [sample_repo "2019-05-01" 0; sample_repo "2019-04-01" 0].


Definition sample_options : gmap string value :=
  {[ "fromDate" := VStr "2019-01-01";
     "minCommits" := VStr "5";
     "colour" := VStr "red" ]}.

(** [getUsersRepoCommitsCountAll(repo)] of the base class (lines 106-108),
    which the platform classes override. *)
Definition BaseCounter_getUsersRepoCommitsCountAll (repo : value) : Z := 0.

(** Whether a run stopped because the recursion budget of the model ran
    out, which stands for a recursion that does not end. *)
Definition is_out_of_fuel {A} (c : completion A) : bool :=
  match c with
  | Stuck OutOfFuel => true
  | _ => false
  end.

(** The number of repos with a positive count *)
Definition active_count (counts : list Z) : Z :=
  Z.of_nat (length (List.filter is_active counts)).

(** An error as the HTTP client reports a response with a status outside
    2xx: the response and its body hang off the error. *)
Definition http_error (status : Z) (body : value) : value :=
  VObj {[ "response" := VObj {[ "status" := VInt status; "data" := body ]} ]}.

(** A client that answers the first [n] requests like [first] and rejects
    every later one. *)
Definition failing_after (n : nat)
    (first : list (gmap string value) -> gmap string value -> outcome)
    : list (gmap string value) -> gmap string value -> outcome :=
  fun history options =>
    if Nat.ltb (length history) n then first history options
    else Rejected (http_error 500 (VStr "Internal Server Error")).

(** A client that rejects every request with the same error. *)
Definition rejecting_api (error : value)
    : list (gmap string value) -> gmap string value -> outcome :=
  fun _ _ => Rejected error.



(** A body that is an object with [length] 100 and no repo in it. *)
Definition object_page : value :=
  VObj {[ "length" := VInt 100 ]}.

(** * Properties *)

(** ** Values and property access *)

Lemma get_prop_truthy (v : value) (k : string) :
  truthy v = true -> exists r, get_prop v k = Normal r.
Proof.
  destruct v; simpl; try discriminate; intros _; eauto.
  - destruct (String.eqb k "length"); eauto.
  - destruct (String.eqb k "length"); eauto.
Qed.

Lemma get_prop_not_stuck (v : value) (k : string) (s : stuck) :
  get_prop v k <> Stuck s.
Proof.
  destruct v; simpl; try discriminate;
    destruct (String.eqb k "length"); discriminate.
Qed.

Lemma get_prop_throws_TypeError (v : value) (k : string) (e : value) :
  get_prop v k = Throw e -> exists msg, e = TypeError msg.
Proof.
  destruct v; simpl; try discriminate;
    try (destruct (String.eqb k "length"); discriminate);
    intros [= <-]; eauto.
Qed.

Lemma truthy_falsy_cases (v : value) :
  truthy v = false <->
  v = VUndefined \/ v = VNull \/ v = VBool false \/ v = VNum NaN \/
  v = VNum (Int 0) \/ v = VStr "".
Proof.
  split.
  - destruct v as [| |b|n|s|l|m]; simpl; intros H; auto; try discriminate.
    + destruct b; [discriminate | auto 10].
    + destruct n as [|z]; [auto 10|].
      apply negb_false_iff, Z.eqb_eq in H. subst. auto 10.
    + apply negb_false_iff, String.eqb_eq in H. subst. auto 10.
  - intros [-> | [-> | [-> | [-> | [-> | ->]]]]]; reflexivity.
Qed.

(** The diagnostic payload is computed without throwing. *)
Lemma errorString_of_payload (error : value) :
  errorString_of error = Normal (error_payload error).
Proof.
  unfold errorString_of, error_payload.
  destruct error as [| |b|n|s|l|m]; try reflexivity.
  - destruct b; reflexivity.
  - destruct n as [|z]; [reflexivity|]. simpl.
    destruct (Z.eqb z 0) eqn:E; repeat (simpl; rewrite ?E); reflexivity.
  - simpl. destruct (String.eqb s "") eqn:E; repeat (simpl; rewrite ?E); reflexivity.
  - simpl. destruct (m !! "response") as [response|]; [|reflexivity].
    simpl. destruct (truthy response) eqn:Ht;
      [|repeat (simpl; rewrite ?Ht); reflexivity].
    destruct (get_prop_truthy response "data" Ht) as [data ->]. simpl.
    destruct (truthy data) eqn:Hd; repeat (simpl; rewrite ?Hd); reflexivity.
Qed.

Lemma error_payload_TypeError (msg : string) :
  error_payload (TypeError msg) = VStr "".
Proof.
  unfold error_payload, TypeError.
  rewrite lookup_singleton_ne; [reflexivity | discriminate].
Qed.

Ltac unfold_M :=
  unfold mbind, M_bind, mret, M_ret, lift, stuck_at, try_catch in *.

Section MethodProperties.
Context `{RT : Runtime}.
Variable axios : list (gmap string value) -> gmap string value -> outcome.
Variable getUsersRepoCommitsCountAll : value -> Z.

(** ** The HTTP accessor *)

(** What [getFromAPI] returns and what it leaves behind, by cases on what
    the client answered. *)
Lemma getFromAPI_eq (this : Counter) (endpoint : string) (p : value)
    (extraOptions : gmap string value) (w : World) :
  getFromAPI axios this endpoint p extraOptions w =
  let options := request_options this endpoint p extraOptions in
  match axios (requests w) options with
  | Resolved response =>
      match get_prop response "data" with
      | Normal data => (Normal (js_or data (VBool false)), after_request w options)
      | _ => (Normal (VBool false),
              after_failure this endpoint w options (VStr ""))
      end
  | Rejected error =>
      (Normal (VBool false),
       after_failure this endpoint w options (error_payload error))
  end.
Proof.
  unfold getFromAPI, await_axios, log. unfold_M. cbv zeta.
  destruct (axios _ _) as [response | error].
  - destruct (get_prop response "data") as [data | e | s] eqn:Hdata.
    + reflexivity.
    + apply get_prop_throws_TypeError in Hdata as [msg ->].
      rewrite errorString_of_payload, error_payload_TypeError. reflexivity.
    + exfalso. eapply get_prop_not_stuck, Hdata.
  - rewrite errorString_of_payload. reflexivity.
Qed.

(** Every call returns a value, records exactly one request, leaves the
    page parameters alone and writes at most one line. *)
Lemma getFromAPI_returns (this : Counter) (endpoint : string) (p : value)
    (extraOptions : gmap string value) (w : World) :
  exists v lines,
    getFromAPI axios this endpoint p extraOptions w =
    (Normal v,
     {| params := params w;
        requests := requests w ++
                    [request_options this endpoint p extraOptions];
        console := console w ++ lines |}).
Proof.
  rewrite getFromAPI_eq. cbv zeta.
  destruct (axios _ _) as [response | error].
  - destruct (get_prop response "data") as [data | e | s].
    + exists (js_or data (VBool false)), []. unfold after_request.
      rewrite app_nil_r. reflexivity.
    + eexists _, [_]. reflexivity.
    + eexists _, [_]. reflexivity.
  - eexists _, [_]. reflexivity.
Qed.

Lemma getFromAPI_world (this : Counter) (endpoint : string) (p : value)
    (extraOptions : gmap string value) (w w1 : World) (r : completion value) :
  getFromAPI axios this endpoint p extraOptions w = (r, w1) ->
  params w1 = params w /\
  requests w1 = requests w ++ [request_options this endpoint p extraOptions].
Proof.
  destruct (getFromAPI_returns this endpoint p extraOptions w) as (v & lines & ->).
  intros [= _ <-]. split; reflexivity.
Qed.

(** C4. [getFromAPI] never throws: for every endpoint, parameters, extra
    options and store, and whatever the client answers, the call returns a
    value.  When the client rejects the request (a transport error or a
    status outside 2xx), the value returned is [false], and one diagnostic
    line is written: the class prefix, the failed endpoint, and the error's
    response payload when it has one. *)
Theorem getFromAPI_never_throws (this : Counter) (endpoint : string)
    (p : value) (extraOptions : gmap string value) (w : World) :
  (exists v w', getFromAPI axios this endpoint p extraOptions w = (Normal v, w'))
  /\
  match axios (requests w) (request_options this endpoint p extraOptions) with
  | Rejected error =>
      getFromAPI axios this endpoint p extraOptions w =
      (Normal (VBool false),
       {| params := params w;
          requests := requests w ++
                      [request_options this endpoint p extraOptions];
          console := console w ++
                     [[VStr ("   " +:+ className this +:+ " -");
                       VStr ("Failed call to " +:+ endpoint +:+ " with error:");
                       error_payload error]] |})
  | Resolved response =>
      forall e, get_prop response "data" = Throw e ->
      getFromAPI axios this endpoint p extraOptions w =
      (Normal (VBool false),
       after_failure this endpoint w
         (request_options this endpoint p extraOptions) (VStr ""))
  end.
Proof.
  split.
  - destruct (getFromAPI_returns this endpoint p extraOptions w) as (v & lines & H).
    eauto.
  - rewrite getFromAPI_eq. cbv zeta.
    destruct (axios _ _) as [response | error]; [|reflexivity].
    intros e ->. reflexivity.
Qed.

(** C8, amended.  When the request succeeds with a response whose [data]
    is [body], [getFromAPI] returns [body] if it is truthy and [false]
    otherwise.  The bodies turned into [false] are exactly the falsy ones:
    [null], [undefined] and the empty string, and also [0], NaN and
    [false]; an empty array or an empty object is truthy and is returned as
    it is. *)
Theorem getFromAPI_success_body (this : Counter) (endpoint : string)
    (p : value) (extraOptions : gmap string value) (w : World)
    (response : gmap string value) (body : value) :
  axios (requests w) (request_options this endpoint p extraOptions)
    = Resolved (VObj response) ->
  default VUndefined (response !! "data") = body ->
  getFromAPI axios this endpoint p extraOptions w =
    (Normal (if truthy body then body else VBool false),
     after_request w (request_options this endpoint p extraOptions))
  /\ (body = VNull \/ body = VUndefined \/ body = VStr "" ->
      fst (getFromAPI axios this endpoint p extraOptions w) = Normal (VBool false))
  /\ (truthy body = false <->
      body = VUndefined \/ body = VNull \/ body = VBool false \/
      body = VNum NaN \/ body = VNum (Int 0) \/ body = VStr "").
Proof.
  intros Hax Hbody.
  assert (Heq : getFromAPI axios this endpoint p extraOptions w =
    (Normal (if truthy body then body else VBool false),
     after_request w (request_options this endpoint p extraOptions))).
  { rewrite getFromAPI_eq. cbv zeta. rewrite Hax. simpl. rewrite Hbody.
    reflexivity. }
  split; [exact Heq|]. split; [|apply truthy_falsy_cases].
  intros Hempty. rewrite Heq. simpl.
  destruct Hempty as [-> | [-> | ->]]; reflexivity.
Qed.

(** ** The paginated lister *)

Lemma getRepos_S (fuel : nat) (this : Counter) (endpoint : string)
    (fromDate : option num) (w : World) :
  getRepos axios (S fuel) this endpoint fromDate w =
  match getFromAPI axios this endpoint (VObj (params w)) ∅ w with
  | (Normal repos, w1) =>
      if negb (truthy repos) then (Normal (VArr []), w1)
      else
        match repos with
        | VArr items =>
            page_result (getRepos axios fuel this endpoint fromDate)
              this fromDate items w1
        | VBool _ | VNum _ => (Normal repos, w1)
        | VObj body =>
            match body !! "length" with
            | None => (Normal repos, w1)
            | Some count =>
                object_result (getRepos axios fuel this endpoint fromDate)
                  this fromDate body count w1
            end
        | _ => (Stuck OutsideModel, w1)
        end
  | (Throw e, w1) => (Throw e, w1)
  | (Stuck s, w1) => (Stuck s, w1)
  end.
Proof.
  simpl. unfold_M.
  destruct (getFromAPI axios this endpoint (VObj (params w)) ∅ w) as [[repos|e|s] w1];
    try reflexivity.
  destruct (negb (truthy repos)); [reflexivity|].
  destruct repos as [| |b|n|s|items|body]; try reflexivity.
  destruct (body !! "length"); reflexivity.
Qed.

Lemma getRepos_page (fuel : nat) (this : Counter) (endpoint : string)
    (fromDate : option num) (w w1 : World) (items : list value) :
  getFromAPI axios this endpoint (VObj (params w)) ∅ w = (Normal (VArr items), w1) ->
  getRepos axios (S fuel) this endpoint fromDate w =
  page_result (getRepos axios fuel this endpoint fromDate) this fromDate items w1.
Proof. intros H. rewrite getRepos_S, H. reflexivity. Qed.

Lemma getRepos_sentinel (fuel : nat) (this : Counter) (endpoint : string)
    (fromDate : option num) (w w1 : World) :
  getFromAPI axios this endpoint (VObj (params w)) ∅ w = (Normal (VBool false), w1) ->
  getRepos axios (S fuel) this endpoint fromDate w = (Normal (VArr []), w1).
Proof. intros H. rewrite getRepos_S, H. reflexivity. Qed.

Lemma page_result_cut (next : M value) (this : Counter) (fromDate : option num)
    (items : list value) (w : World) :
  date_cutoff this fromDate items = Normal true ->
  page_result next this fromDate items w = (Normal (VArr items), w).
Proof. intros H. unfold page_result. unfold_M. rewrite H. reflexivity. Qed.

Lemma page_result_no_cut (next : M value) (this : Counter)
    (fromDate : option num) (items : list value) (w : World) :
  date_cutoff this fromDate items = Normal false ->
  page_result next this fromDate items w = next_page next this items w.
Proof. intros H. unfold page_result. unfold_M. rewrite H. reflexivity. Qed.

Lemma date_cutoff_no_bound (this : Counter) (items : list value) :
  date_cutoff this None items = Normal false.
Proof. reflexivity. Qed.

Lemma date_cutoff_empty (this : Counter) (fromDate : option num) :
  date_cutoff this fromDate [] = Normal false.
Proof. destruct fromDate; reflexivity. Qed.

(** The date test on a page whose last repo is [lastRepo]. *)
Lemma date_cutoff_last (this : Counter) (from : num) (items : list value)
    (lastRepo : value) :
  last items = Some lastRepo ->
  date_cutoff this (Some from) items =
  cbind (get_prop lastRepo (repoUpdatedDateField this)) (fun updated =>
  cbind (new_Date updated) (fun repoUpdatedDate =>
  Normal (num_lt repoUpdatedDate from))).
Proof.
  intros Hlast. unfold date_cutoff.
  assert (Hlen : (0 < length items)%nat).
  { destruct items; [discriminate | simpl; lia]. }
  assert (Ht : truthy (VInt (Z.of_nat (length items))) = true).
  { simpl. apply negb_true_iff, Z.eqb_neq. lia. }
  rewrite Ht. rewrite last_lookup in Hlast.
  replace (length items - 1)%nat with (pred (length items)) by lia.
  rewrite Hlast. reflexivity.
Qed.

(** C3. Let a call of [getRepos] with a [fromDate] bound fetch a non-empty
    page, and let the last repo's configured updated-date field parse to a
    date strictly earlier than [fromDate].  Then the call returns exactly
    the repos of that page, and the store it leaves is the one right after
    that single fetch: one request was issued, none follows, and the page
    parameters are untouched.  This holds for every call, so in particular
    for the first page. *)
Theorem getRepos_date_cutoff (fuel : nat) (this : Counter) (endpoint : string)
    (from : num) (w w1 : World) (items : list value)
    (lastRepo updated : value) (repoUpdatedDate : num) :
  getFromAPI axios this endpoint (VObj (params w)) ∅ w = (Normal (VArr items), w1) ->
  last items = Some lastRepo ->
  get_prop lastRepo (repoUpdatedDateField this) = Normal updated ->
  new_Date updated = Normal repoUpdatedDate ->
  num_lt repoUpdatedDate from = true ->
  getRepos axios (S fuel) this endpoint (Some from) w = (Normal (VArr items), w1)
  /\ params w1 = params w
  /\ requests w1 =
     requests w ++ [request_options this endpoint (VObj (params w)) ∅].
Proof.
  intros Hfetch Hlast Hfield Hdate Hlt.
  split.
  - rewrite (getRepos_page _ _ _ _ _ _ _ Hfetch).
    apply page_result_cut.
    rewrite (date_cutoff_last _ _ _ _ Hlast), Hfield. simpl.
    rewrite Hdate. simpl. rewrite Hlt. reflexivity.
  - eapply getFromAPI_world, Hfetch.
Qed.


(** ** The aggregator under failure *)

Lemma getAllRepos_eq (fuel : nat) (this : Counter) (w : World) :
  getAllRepos axios fuel this w =
  getRepos axios fuel this (reposEndpoint this)
    (if negb (String.eqb (js_trim (fromDate this)) "")
     then Some (Date_parse (fromDate this)) else None) w.
Proof.
  unfold getAllRepos. destruct (negb _); reflexivity.
Qed.

Lemma get_sentinel (fuel : nat) (this : Counter) (w w1 : World) :
  getFromAPI axios this (reposEndpoint this) (VObj (params w)) ∅ w
    = (Normal (VBool false), w1) ->
  get axios getUsersRepoCommitsCountAll (S fuel) this w
  = (Normal {| projects := 0; commits := 0 |}, w1).
Proof.
  intros Hfetch. unfold get. unfold_M. rewrite getAllRepos_eq.
  rewrite (getRepos_sentinel _ _ _ _ _ _ Hfetch). reflexivity.
Qed.

(** C6. When the first page fetch yields the failure sentinel [false],
    [getRepos] returns the empty array and [get()] returns
    [{projects: 0, commits: 0}]; neither throws, and nothing is fetched
    after that first request. *)
Theorem get_first_fetch_fails (fuel : nat) (this : Counter) (w w1 : World) :
  getFromAPI axios this (reposEndpoint this) (VObj (params w)) ∅ w
    = (Normal (VBool false), w1) ->
  (forall fromDate,
     getRepos axios (S fuel) this (reposEndpoint this) fromDate w
     = (Normal (VArr []), w1))
  /\ get axios getUsersRepoCommitsCountAll (S fuel) this w
     = (Normal {| projects := 0; commits := 0 |}, w1)
  /\ requests w1 =
     requests w ++
     [request_options this (reposEndpoint this) (VObj (params w)) ∅].
Proof.
  intros Hfetch. split; [|split].
  - intros fromDate. apply getRepos_sentinel, Hfetch.
  - apply get_sentinel, Hfetch.
  - eapply getFromAPI_world, Hfetch.
Qed.

(** Total failure: when the client rejects whatever it is asked, [get()]
    returns zero totals after one request and one diagnostic line. *)
Lemma get_total_failure (fuel : nat) (this : Counter) (w : World) :
  (forall history options, exists error, axios history options = Rejected error) ->
  exists line,
    get axios getUsersRepoCommitsCountAll (S fuel) this w =
    (Normal {| projects := 0; commits := 0 |},
     {| params := params w;
        requests := requests w ++
                    [request_options this (reposEndpoint this) (VObj (params w)) ∅];
        console := console w ++ [line] |}).
Proof.
  intros Hfail.
  destruct (Hfail (requests w)
              (request_options this (reposEndpoint this) (VObj (params w)) ∅))
    as [error Herror].
  eexists. apply get_sentinel.
  rewrite getFromAPI_eq. cbv zeta. rewrite Herror. reflexivity.
Qed.

(** ** The page parameters *)

Lemma bump_page_other (m : gmap string value) (k : string) :
  k <> "page" -> bump_page m !! k = m !! k.
Proof.
  intros Hk. unfold bump_page.
  destruct (to_number _); [|reflexivity|reflexivity].
  apply lookup_insert_ne. congruence.
Qed.

Lemma iter_bump_page_other (n : nat) (m : gmap string value) (k : string) :
  k <> "page" -> Nat.iter n bump_page m !! k = m !! k.
Proof.
  intros Hk. induction n as [|n IH]; [reflexivity|].
  simpl. rewrite bump_page_other by exact Hk. exact IH.
Qed.

Lemma increment_page_params (w : World) :
  params (snd (increment_page w)) = bump_page (params w)
  /\ requests (snd (increment_page w)) = requests w
  /\ console (snd (increment_page w)) = console w.
Proof.
  unfold increment_page, bump_page.
  destruct (to_number _); simpl; auto.
Qed.

Lemma page_result_params (next : M value) (this : Counter)
    (fromDate : option num) (items : list value) :
  (forall w, exists n, params (snd (next w)) = Nat.iter n bump_page (params w)) ->
  forall w, exists n,
    params (snd (page_result next this fromDate items w))
    = Nat.iter n bump_page (params w).
Proof.
  intros Hnext w. unfold page_result, next_page. unfold_M.
  destruct (date_cutoff this fromDate items) as [[|]|e|s];
    try (exists 0%nat; reflexivity).
  destruct (Z.eqb _ _); [|exists 0%nat; reflexivity].
  destruct (increment_page_params w) as (Hp & _ & _).
  destruct (increment_page w) as [[[]|e|s] w2]; simpl in Hp;
    try (exists 1%nat; simpl; exact Hp).
  destruct (Hnext w2) as [n Hn].
  exists (S n). rewrite Nat.iter_succ_r, <- Hp.
  destruct (next w2) as [[v|e|s] w3]; simpl in *; exact Hn.
Qed.

Lemma object_result_params (next : M value) (this : Counter)
    (fromDate : option num) (body : gmap string value) (count : value) :
  (forall w, exists n, params (snd (next w)) = Nat.iter n bump_page (params w)) ->
  forall w, exists n,
    params (snd (object_result next this fromDate body count w))
    = Nat.iter n bump_page (params w).
Proof.
  intros Hnext w. unfold object_result, object_next_page. unfold_M.
  destruct (object_date_cutoff this fromDate body count) as [[|]|e|s];
    try (exists 0%nat; reflexivity).
  match goal with |- context [if ?c then _ else _] => destruct c end;
    [|exists 0%nat; reflexivity].
  destruct (increment_page_params w) as (Hp & _ & _).
  destruct (increment_page w) as [[[]|e|s] w2]; simpl in Hp;
    try (exists 1%nat; simpl; exact Hp).
  destruct (Hnext w2) as [n Hn].
  exists (S n). rewrite Nat.iter_succ_r, <- Hp.
  destruct (next w2) as [[v|e|s] w3]; simpl in *; exact Hn.
Qed.

Lemma getRepos_params (fuel : nat) (this : Counter) (endpoint : string)
    (fromDate : option num) (w : World) :
  exists n,
    params (snd (getRepos axios fuel this endpoint fromDate w))
    = Nat.iter n bump_page (params w).
Proof.
  revert w. induction fuel as [|fuel IH]; intros w.
  - exists 0%nat. reflexivity.
  - rewrite getRepos_S.
    destruct (getFromAPI axios this endpoint (VObj (params w)) ∅ w)
      as [r w1] eqn:Hfetch.
    apply getFromAPI_world in Hfetch as [Hp _].
    destruct r as [repos|e|s]; try (exists 0%nat; simpl; exact Hp).
    destruct (negb (truthy repos)); [exists 0%nat; simpl; exact Hp|].
    destruct repos as [| |b|n|s|items|body]; try (exists 0%nat; simpl; exact Hp).
    + rewrite <- Hp. apply page_result_params. exact IH.
    + destruct (body !! "length") as [count|]; [|exists 0%nat; simpl; exact Hp].
      rewrite <- Hp. apply object_result_params. exact IH.
Qed.

Lemma get_params (fuel : nat) (this : Counter) (w : World) :
  params (snd (get axios getUsersRepoCommitsCountAll fuel this w))
  = params (snd (getAllRepos axios fuel this w)).
Proof.
  unfold get. unfold_M.
  destruct (getAllRepos axios fuel this w) as [[repos|e|s] w1]; try reflexivity.
  destruct repos as [| |b|n|s|items|body]; try reflexivity.
  destruct (body !! "length") as [count|]; [|reflexivity].
  destruct (to_number count); reflexivity.
Qed.

(** C9. Whatever [getRepos] and [get()] do, the page-parameter object they
    leave is the one they found after some number of executions of
    [params.page++]; every property other than [page] keeps the value it
    had (and a property that was absent stays absent). *)
Theorem params_only_page_changes (fuel : nat) (this : Counter)
    (endpoint : string) (fromDate : option num) (w : World) (k : string) :
  k <> "page" ->
  (exists n, params (snd (getRepos axios fuel this endpoint fromDate w))
             = Nat.iter n bump_page (params w))
  /\ (exists n, params (snd (get axios getUsersRepoCommitsCountAll fuel this w))
                = Nat.iter n bump_page (params w))
  /\ params (snd (getRepos axios fuel this endpoint fromDate w)) !! k
     = params w !! k
  /\ params (snd (get axios getUsersRepoCommitsCountAll fuel this w)) !! k
     = params w !! k.
Proof.
  intros Hk.
  assert (Hget : exists n,
    params (snd (get axios getUsersRepoCommitsCountAll fuel this w))
    = Nat.iter n bump_page (params w)).
  { rewrite get_params, getAllRepos_eq. apply getRepos_params. }
  destruct (getRepos_params fuel this endpoint fromDate w) as [n Hn].
  destruct Hget as [n' Hn'].
  split; [eauto|]. split; [eauto|]. split.
  - rewrite Hn. apply iter_bump_page_other, Hk.
  - rewrite Hn'. apply iter_bump_page_other, Hk.
Qed.

(** ** Walking the pages *)

Lemma page_requests_S (this : Counter) (endpoint : string)
    (m : gmap string value) (p : Z) (k : nat) :
  page_requests this endpoint m p (S k) =
  page_request this endpoint m p :: page_requests this endpoint m (p + 1) k.
Proof.
  unfold page_requests. simpl. rewrite Z.add_0_r. f_equal.
  rewrite <- seq_shift, map_map. apply map_ext. intros i.
  f_equal. lia.
Qed.

Lemma increment_page_at (m : gmap string value) (q : Z)
    (h : list (gmap string value)) (c : list (list value)) :
  increment_page (world_at m q h c) = (Normal tt, world_at m (q + 1) h c).
Proof.
  unfold increment_page, world_at. simpl.
  rewrite lookup_insert_eq. simpl. rewrite insert_insert_eq. reflexivity.
Qed.

Lemma getFromAPI_page (this : Counter) (endpoint : string)
    (m : gmap string value) (q : Z) (h : list (gmap string value))
    (c : list (list value)) (response : value) (items : list value) :
  axios h (page_request this endpoint m q) = Resolved response ->
  get_prop response "data" = Normal (VArr items) ->
  getFromAPI axios this endpoint (VObj (params (world_at m q h c))) ∅
    (world_at m q h c)
  = (Normal (VArr items), world_at m q (h ++ [page_request this endpoint m q]) c).
Proof.
  intros Hax Hdata. rewrite getFromAPI_eq. cbv zeta. simpl.
  unfold page_request in Hax. rewrite Hax, Hdata. reflexivity.
Qed.

(** The walk over [full ++ [lastPage]]: every page of [full] has exactly
    [itemsPerPage] repos and passes the date test, [lastPage] ends the walk
    (by the date test or by its length), and the client answers the request
    for the [k]-th page with that page. *)
Lemma getRepos_walk (this : Counter) (endpoint : string)
    (fromDate : option num) (m : gmap string value) (c : list (list value))
    (lastPage : list value) (full : list (list value)) :
  forall (p : Z) (h : list (gmap string value)) (fuel : nat),
  (length full < fuel)%nat ->
  Forall (fun items => Z.of_nat (length items) = itemsPerPage this
                       /\ date_cutoff this fromDate items = Normal false) full ->
  (exists cut, date_cutoff this fromDate lastPage = Normal cut
               /\ (cut = true \/ Z.of_nat (length lastPage) <> itemsPerPage this)) ->
  (forall (k : nat) (items : list value),
     (full ++ [lastPage]) !! k = Some items ->
     exists response,
       axios (h ++ page_requests this endpoint m p k)
             (page_request this endpoint m (p + Z.of_nat k)) = Resolved response
       /\ get_prop response "data" = Normal (VArr items)) ->
  getRepos axios fuel this endpoint fromDate (world_at m p h c) =
  (Normal (VArr (concat (full ++ [lastPage]))),
   world_at m (p + Z.of_nat (length full))
     (h ++ page_requests this endpoint m p (S (length full))) c).
Proof.
  induction full as [|items rest IH]; intros p h fuel Hfuel Hfull Hlast Hserve.
  - destruct fuel as [|fuel]; [simpl in Hfuel; lia|].
    destruct (Hserve 0%nat lastPage eq_refl) as (response & Hax & Hdata).
    unfold page_requests in Hax. simpl in Hax.
    rewrite app_nil_r, Z.add_0_r in Hax.
    rewrite (getRepos_page _ _ _ _ _ _ _ (getFromAPI_page _ _ _ _ _ c _ _ Hax Hdata)).
    destruct Hlast as (cut & Hcut & Hend).
    simpl. rewrite app_nil_r, !Z.add_0_r.
    unfold page_requests. simpl. rewrite Z.add_0_r.
    destruct cut.
    + apply page_result_cut, Hcut.
    + rewrite (page_result_no_cut _ _ _ _ _ Hcut).
      destruct Hend as [Hc | Hlen]; [discriminate|].
      unfold next_page. apply Z.eqb_neq in Hlen. rewrite Hlen. reflexivity.
  - destruct fuel as [|fuel]; [simpl in Hfuel; lia|].
    destruct (Hserve 0%nat items eq_refl) as (response & Hax & Hdata).
    unfold page_requests in Hax. simpl in Hax.
    rewrite app_nil_r, Z.add_0_r in Hax.
    rewrite (getRepos_page _ _ _ _ _ _ _ (getFromAPI_page _ _ _ _ _ c _ _ Hax Hdata)).
    inversion Hfull as [|? ? [Hlen Hcut] Hrest]; subst.
    rewrite (page_result_no_cut _ _ _ _ _ Hcut).
    unfold next_page. apply Z.eqb_eq in Hlen. rewrite Hlen.
    unfold_M. rewrite increment_page_at.
    rewrite (IH (p + 1) (h ++ [page_request this endpoint m p]) fuel).
    + simpl. f_equal. rewrite page_requests_S with (k := S (length rest)).
      rewrite <- app_assoc. simpl. f_equal. lia.
    + simpl in Hfuel. lia.
    + exact Hrest.
    + exact Hlast.
    + intros k items' Hk.
      destruct (Hserve (S k) items' Hk) as (response' & Hax' & Hdata').
      exists response'. split; [|exact Hdata'].
      rewrite page_requests_S in Hax'.
      replace (h ++ page_request this endpoint m p
                 :: page_requests this endpoint m (p + 1) k)
        with ((h ++ [page_request this endpoint m p])
                ++ page_requests this endpoint m (p + 1) k) in Hax'
        by (rewrite <- app_assoc; reflexivity).
      replace (p + 1 + Z.of_nat k) with (p + Z.of_nat (S k)) by lia.
      exact Hax'.
Qed.

(** One step of the walk: a full page that passes the date test increments
    [params.page], asks for the rest and appends it; any other page that
    passes the date test is returned. *)
Lemma getRepos_page_step (fuel : nat) (this : Counter) (endpoint : string)
    (fromDate : option num) (w w1 : World) (items : list value) :
  getFromAPI axios this endpoint (VObj (params w)) ∅ w = (Normal (VArr items), w1) ->
  date_cutoff this fromDate items = Normal false ->
  getRepos axios (S fuel) this endpoint fromDate w =
  if Z.eqb (Z.of_nat (length items)) (itemsPerPage this) then
    (_ ← increment_page;
     newRepos ← getRepos axios fuel this endpoint fromDate;
     mret (js_concat items newRepos)) w1
  else (Normal (VArr items), w1).
Proof.
  intros Hfetch Hcut.
  rewrite (getRepos_page _ _ _ _ _ _ _ Hfetch).
  rewrite (page_result_no_cut _ _ _ _ _ Hcut). unfold next_page.
  destruct (Z.eqb _ _); reflexivity.
Qed.

(** C2. Let the page parameters start at page [p0], and let the client
    answer the successive requests with the pages [full ++ [lastPage]],
    where every page of [full] has exactly [itemsPerPage] repos and
    triggers no date cutoff, and [lastPage] ends the walk (its length
    differs from [itemsPerPage], or the date cutoff triggers on it).  Then
    [getRepos] returns the repos of all these pages concatenated in order,
    after exactly one request per page, the [k]-th of them made with
    [page] equal to [p0 + k]; [params.page] ends at the number of the last
    page fetched. *)
Theorem getRepos_walks_pages (fuel : nat) (this : Counter) (endpoint : string)
    (fromDate : option num) (w : World) (p0 : Z)
    (full : list (list value)) (lastPage : list value) :
  params w !! "page" = Some (VInt p0) ->
  (length full < fuel)%nat ->
  Forall (fun items => Z.of_nat (length items) = itemsPerPage this
                       /\ date_cutoff this fromDate items = Normal false) full ->
  (exists cut, date_cutoff this fromDate lastPage = Normal cut
               /\ (cut = true \/ Z.of_nat (length lastPage) <> itemsPerPage this)) ->
  (forall (k : nat) (items : list value),
     (full ++ [lastPage]) !! k = Some items ->
     exists response,
       axios (requests w ++ page_requests this endpoint (params w) p0 k)
             (page_request this endpoint (params w) (p0 + Z.of_nat k))
         = Resolved response
       /\ get_prop response "data" = Normal (VArr items)) ->
  getRepos axios fuel this endpoint fromDate w =
  (Normal (VArr (concat (full ++ [lastPage]))),
   {| params := <["page" := VInt (p0 + Z.of_nat (length full))]> (params w);
      requests := requests w ++
                  page_requests this endpoint (params w) p0 (S (length full));
      console := console w |}).
Proof.
  intros Hpage Hfuel Hfull Hlast Hserve.
  pose proof (getRepos_walk this endpoint fromDate (params w) (console w)
                lastPage full p0 (requests w) fuel Hfuel Hfull Hlast Hserve) as H.
  unfold world_at in H. rewrite (insert_id _ _ _ Hpage) in H.
  destruct w as [m h c]. exact H.
Qed.

(** ** The aggregation loop *)

Lemma count_loop_totals (this : Counter) (repos : list value) :
  forall usersProjectsCount usersCommitsCount : Z,
  count_loop getUsersRepoCommitsCountAll this repos
    usersProjectsCount usersCommitsCount =
  {| projects :=
       usersProjectsCount +
       projects (expected_totals (minCommits this)
                   (map getUsersRepoCommitsCountAll repos));
     commits :=
       usersCommitsCount +
       commits (expected_totals (minCommits this)
                  (map getUsersRepoCommitsCountAll repos)) |}.
Proof.
  induction repos as [|repo rest IH]; intros p c.
  - simpl. f_equal; lia.
  - cbn [count_loop map]. rewrite !IH.
    unfold expected_totals. cbn [projects commits List.filter].
    assert (Ha : is_active (getUsersRepoCommitsCountAll repo)
                 = Z.ltb 0 (getUsersRepoCommitsCountAll repo)) by reflexivity.
    assert (Hp : is_project (minCommits this) (getUsersRepoCommitsCountAll repo)
                 = (Z.ltb 0 (getUsersRepoCommitsCountAll repo)
                    && num_ge (Int (getUsersRepoCommitsCountAll repo))
                         (minCommits this))%bool) by reflexivity.
    rewrite Ha, Hp.
    destruct (Z.ltb 0 (getUsersRepoCommitsCountAll repo)); cbn [andb];
      [destruct (num_ge _ _)|]; unfold Zsum; cbn [length fold_right];
      f_equal; lia.
Qed.

(** C1. When the lister hands [get()] the repo sequence [repos], [get()]
    returns [commits] equal to the sum of the per-repo counts that are
    greater than 0 (whether or not they reach [minCommits]) and [projects]
    equal to the number of repos whose count is greater than 0 and at
    least [minCommits]; a repo whose count is 0 adds to neither. *)
Theorem get_totals (fuel : nat) (this : Counter) (w w1 : World)
    (repos : list value) :
  getAllRepos axios fuel this w = (Normal (VArr repos), w1) ->
  get axios getUsersRepoCommitsCountAll fuel this w =
  (Normal
     {| projects :=
          Z.of_nat (length (List.filter
                              (fun n => (Z.ltb 0 n && num_ge (Int n) (minCommits this))%bool)
                              (map getUsersRepoCommitsCountAll repos)));
        commits :=
          Zsum (List.filter (fun n => Z.ltb 0 n)
                  (map getUsersRepoCommitsCountAll repos)) |},
   w1).
Proof.
  intros Hrepos. unfold get. unfold_M. rewrite Hrepos.
  rewrite count_loop_totals. reflexivity.
Qed.

End MethodProperties.

(** ** Option resolution *)

Lemma option_choice_typeof (options : gmap string value) (option : string)
    (defaultValue : value) :
  typeof (option_choice options option defaultValue) = typeof defaultValue.
Proof.
  unfold option_choice. destruct (options !! option) as [v|]; [|reflexivity].
  destruct (String.eqb (typeof v) (typeof defaultValue)) eqn:E; [|reflexivity].
  apply String.eqb_eq, E.
Qed.

(** [getOptionValue] throws on a mapping with an own [hasOwnProperty] and
    chooses between the user's value and the default on any other. *)
Lemma getOptionValue_eq (options : gmap string value) (option : string)
    (defaultValue : value) :
  getOptionValue options option defaultValue =
  match options !! "hasOwnProperty" with
  | Some _ => Throw (TypeError "options.hasOwnProperty is not a function")
  | None => Normal (option_choice options option defaultValue)
  end.
Proof.
  unfold getOptionValue, hasOwnProperty, option_choice.
  destruct (options !! "hasOwnProperty"); [reflexivity|]. cbn [cbind].
  destruct (options !! option) as [v|].
  - rewrite bool_decide_eq_true_2 by eauto. simpl.
    destruct (String.eqb (typeof v) (typeof defaultValue)); reflexivity.
  - rewrite bool_decide_eq_false_2 by (intros [? ?]; discriminate). reflexivity.
Qed.

Lemma resolved_options_lookup (defaultOptions options : gmap string value)
    (option : string) :
  resolved_options defaultOptions options !! option =
  option_choice options option <$> defaultOptions !! option.
Proof.
  unfold resolved_options. rewrite map_lookup_imap.
  destruct (defaultOptions !! option); reflexivity.
Qed.


(** The loop of the constructor in closed form.  With no default there is
    no turn of the loop; otherwise the first turn throws when the defaults
    or the options have an own [hasOwnProperty], and every key is resolved
    when neither has. *)
Lemma resolveOptions_eq (defaultOptions options : gmap string value) :
  resolveOptions defaultOptions options =
  if decide (defaultOptions = ∅) then Normal ∅
  else
    match defaultOptions !! "hasOwnProperty" with
    | Some _ =>
        Throw (TypeError "defaultOptions.hasOwnProperty is not a function")
    | None =>
        match options !! "hasOwnProperty" with
        | Some _ => Throw (TypeError "options.hasOwnProperty is not a function")
        | None => Normal (resolved_options defaultOptions options)
        end
    end.
Proof.
  unfold resolveOptions.
  set (closed := fun m : gmap string value =>
    if decide (m = ∅) then Normal ∅
    else
      match defaultOptions !! "hasOwnProperty" with
      | Some _ =>
          Throw (TypeError "defaultOptions.hasOwnProperty is not a function")
      | None =>
          match options !! "hasOwnProperty" with
          | Some _ => Throw (TypeError "options.hasOwnProperty is not a function")
          | None => Normal (resolved_options m options)
          end
      end).
  assert (H : forall m : gmap string value, m ⊆ defaultOptions ->
    map_fold (resolve_option defaultOptions options) (Normal ∅) m = closed m).
  { apply (map_fold_weak_ind (fun r (m : gmap string value) =>
             m ⊆ defaultOptions -> r = closed m)).
    - intros _. unfold closed. rewrite decide_True by reflexivity. reflexivity.
    - intros i x m r Hi IH Hsub.
      assert (Hm : m ⊆ defaultOptions).
      { etransitivity; [apply insert_subseteq, Hi | exact Hsub]. }
      assert (Hix : defaultOptions !! i = Some x).
      { eapply lookup_weaken; [apply lookup_insert_eq | exact Hsub]. }
      rewrite (IH Hm). clear IH. unfold closed.
      rewrite (decide_False (P := <[i:=x]> m = ∅)) by apply insert_non_empty.
      unfold resolve_option, hasOwnProperty.
      destruct (defaultOptions !! "hasOwnProperty") as [h|].
      { destruct (decide (m = ∅)); reflexivity. }
      rewrite Hix, bool_decide_eq_true_2 by eauto.
      rewrite getOptionValue_eq.
      destruct (options !! "hasOwnProperty") as [h|].
      { destruct (decide (m = ∅)); reflexivity. }
      assert (Hins : resolved_options (<[i:=x]> m) options
                     = <[i := option_choice options i x]> (resolved_options m options)).
      { unfold resolved_options. rewrite map_imap_insert. reflexivity. }
      rewrite Hins.
      destruct (decide (m = ∅)) as [-> | _]; [|reflexivity].
      cbn [cbind]. unfold resolved_options. rewrite map_imap_empty. reflexivity. }
  apply H. reflexivity.
Qed.

Lemma resolveOptions_Normal (defaultOptions options this : gmap string value) :
  resolveOptions defaultOptions options = Normal this ->
  this = resolved_options defaultOptions options
  /\ (defaultOptions <> ∅ ->
      defaultOptions !! "hasOwnProperty" = None
      /\ options !! "hasOwnProperty" = None).
Proof.
  rewrite resolveOptions_eq.
  destruct (decide (defaultOptions = ∅)) as [-> | Hne].
  - intros [= <-]. split; [|congruence].
    unfold resolved_options. rewrite map_imap_empty. reflexivity.
  - destruct (defaultOptions !! "hasOwnProperty"); [discriminate|].
    destruct (options !! "hasOwnProperty"); [discriminate|].
    intros [= <-]. auto.
Qed.

Lemma resolveOptions_plain (defaultOptions options : gmap string value) :
  defaultOptions !! "hasOwnProperty" = None ->
  options !! "hasOwnProperty" = None ->
  resolveOptions defaultOptions options
  = Normal (resolved_options defaultOptions options).
Proof.
  intros Hd Ho. rewrite resolveOptions_eq, Hd, Ho.
  destruct (decide (defaultOptions = ∅)) as [-> | _]; [|reflexivity].
  unfold resolved_options. rewrite map_imap_empty. reflexivity.
Qed.


Lemma getDefaultOptions_plain : getDefaultOptions !! "hasOwnProperty" = None.
Proof. reflexivity. Qed.

Lemma getDefaultOptions_not_empty : getDefaultOptions <> ∅.
Proof.
  intros H. assert (Hu : getDefaultOptions !! "username" = Some (VStr ""))
    by reflexivity.
  rewrite H, lookup_empty in Hu. discriminate.
Qed.

(** The constructor throws on options with an own [hasOwnProperty] and
    builds the instance from the resolved options otherwise. *)
Lemma BaseCounter_new_eq (options : gmap string value) :
  BaseCounter_new options =
  match options !! "hasOwnProperty" with
  | Some _ => Throw (TypeError "options.hasOwnProperty is not a function")
  | None =>
      let this := resolved_options getDefaultOptions options in
      Normal
        {| className := "BaseCounter";
           username := as_string (field this "username");
           accessToken := as_string (field this "accessToken");
           userEmailAddresses := field this "userEmailAddresses";
           userNames := field this "userNames";
           fromDate := as_string (field this "fromDate");
           untilDate := as_string (field this "untilDate");
           minCommits := as_num (field this "minCommits");
           itemsPerPage := 100;
           reposEndpoint := "";
           repoUpdatedDateField := "" |}
  end.
Proof.
  unfold BaseCounter_new. rewrite resolveOptions_eq.
  rewrite (decide_False (P := getDefaultOptions = ∅))
    by apply getDefaultOptions_not_empty.
  rewrite getDefaultOptions_plain.
  destruct (options !! "hasOwnProperty"); reflexivity.
Qed.

(** The typed fields of the instance lose nothing: each holds the value
    that the constructor resolved. *)
Lemma BaseCounter_new_fields (options : gmap string value) (this : Counter) :
  BaseCounter_new options = Normal this ->
  options !! "hasOwnProperty" = None
  /\ VStr (username this) = option_choice options "username" (VStr "")
  /\ VStr (accessToken this) = option_choice options "accessToken" (VStr "")
  /\ userEmailAddresses this = option_choice options "userEmailAddresses" (VArr [])
  /\ userNames this = option_choice options "userNames" (VArr [])
  /\ VStr (fromDate this) = option_choice options "fromDate" (VStr "")
  /\ VStr (untilDate this) = option_choice options "untilDate" (VStr "")
  /\ VNum (minCommits this) = option_choice options "minCommits" (VInt 1).
Proof.
  assert (Hstr : forall v, typeof v = "string" -> VStr (as_string v) = v).
  { intros v. destruct v; simpl; try discriminate. reflexivity. }
  assert (Hnum : forall v, typeof v = "number" -> VNum (as_num v) = v).
  { intros v. destruct v; simpl; try discriminate. reflexivity. }
  rewrite BaseCounter_new_eq.
  destruct (options !! "hasOwnProperty") as [h|] eqn:Ho; [discriminate|].
  intros [= <-]. split; [reflexivity|].
  assert (Hfield : forall k d, getDefaultOptions !! k = Some d ->
            field (resolved_options getDefaultOptions options) k
            = option_choice options k d).
  { intros k d Hd. unfold field. rewrite resolved_options_lookup, Hd. reflexivity. }
  cbn [username accessToken userEmailAddresses userNames fromDate untilDate
       minCommits].
  rewrite (Hfield "username" (VStr "")), (Hfield "accessToken" (VStr "")),
    (Hfield "userEmailAddresses" (VArr [])), (Hfield "userNames" (VArr [])),
    (Hfield "fromDate" (VStr "")), (Hfield "untilDate" (VStr "")),
    (Hfield "minCommits" (VInt 1)) by reflexivity.
  repeat split; try (apply Hstr, option_choice_typeof);
    apply Hnum, option_choice_typeof.
Qed.

(** * The properties on concrete runs *)

(** [get_totals] on three repos with counts 0, 5 and 2 and a threshold of 3
    commits, and on two repos with counts 0 and 0. *)
Lemma get_totals_example :
  fst (get (RT := sample_runtime) (paged_api [three_repos]) commits_field 2
         (sample_counter "" 3) (initial_world 1))
  = Normal {| projects := 1; commits := 7 |}
  /\ fst (get (RT := sample_runtime) (paged_api [two_idle_repos]) commits_field 2
            (sample_counter "" 3) (initial_world 1))
     = Normal {| projects := 0; commits := 0 |}.
Proof.
  split.
  - rewrite (get_totals (RT := sample_runtime) (paged_api [three_repos])
               commits_field 2 (sample_counter "" 3) (initial_world 1)
               (snd (getAllRepos (RT := sample_runtime) (paged_api [three_repos])
                       2 (sample_counter "" 3) (initial_world 1)))
               three_repos).
    + reflexivity.
    + reflexivity.
  - rewrite (get_totals (RT := sample_runtime) (paged_api [two_idle_repos])
               commits_field 2 (sample_counter "" 3) (initial_world 1)
               (snd (getAllRepos (RT := sample_runtime) (paged_api [two_idle_repos])
                       2 (sample_counter "" 3) (initial_world 1)))
               two_idle_repos).
    + reflexivity.
    + reflexivity.
Defined.

(** [getRepos_walks_pages] on pages of 100, 100 and 37 repos without a
    [fromDate]: 237 repos, three requests, [page] left at 3. *)
Lemma getRepos_walks_pages_example :
  let run := getRepos (RT := sample_runtime)
               (paged_api [full_page "2019-05-01"; full_page "2019-04-01";
                           short_page "2019-03-01"])
               3 (sample_counter "" 1) "https://example.org/api/repos" None
               (initial_world 1) in
  repos_length (fst run) = Some 237%nat
  /\ length (requests (snd run)) = 3%nat
  /\ params (snd run) !! "page" = Some (VInt 3).
Proof.
  cbv zeta.
  rewrite (getRepos_walks_pages (RT := sample_runtime)
             (paged_api [full_page "2019-05-01"; full_page "2019-04-01";
                         short_page "2019-03-01"])
             3 (sample_counter "" 1) "https://example.org/api/repos" None
             (initial_world 1) 1
             [full_page "2019-05-01"; full_page "2019-04-01"]
             (short_page "2019-03-01")).
  - cbn [fst snd repos_length params requests]. repeat split; reflexivity.
  - reflexivity.
  - simpl. lia.
  - repeat constructor.
  - exists false. split; [reflexivity|]. right.
    change (37 <> 100). lia.
  - intros k items Hk.
    destruct k as [|[|[|k]]]; [| | |discriminate Hk];
      injection Hk as <-; eexists; split; reflexivity.
Defined.

(** [getRepos_date_cutoff] on a first page of 100 repos last updated in
    2018, with a bound of 2019-01-01: the 100 repos come back after one
    request, although the page is full and a second page exists. *)
Lemma getRepos_date_cutoff_example :
  let api := paged_api [full_page "2018-05-01"; short_page "2018-03-01"] in
  let this := sample_counter "2019-01-01" 1 in
  let run := getRepos (RT := sample_runtime) api 3 this (reposEndpoint this)
               (Some (iso_date_parse "2019-01-01")) (initial_world 1) in
  fst run = Normal (VArr (full_page "2018-05-01"))
  /\ length (requests (snd run)) = 1%nat
  /\ params (snd run) = params (initial_world 1).
Proof.
  cbv zeta.
  destruct (getRepos_date_cutoff (RT := sample_runtime)
              (paged_api [full_page "2018-05-01"; short_page "2018-03-01"])
              2 (sample_counter "2019-01-01" 1)
              (reposEndpoint (sample_counter "2019-01-01" 1))
              (iso_date_parse "2019-01-01") (initial_world 1)
              (snd (getFromAPI
                      (paged_api [full_page "2018-05-01"; short_page "2018-03-01"])
                      (sample_counter "2019-01-01" 1)
                      (reposEndpoint (sample_counter "2019-01-01" 1))
                      (VObj (params (initial_world 1))) ∅ (initial_world 1)))
              (full_page "2018-05-01") (sample_repo "2018-05-01" 1)
              (VStr "2018-05-01") (iso_date_parse "2018-05-01"))
    as (Hrun & Hparams & Hrequests).
  - reflexivity.
  - reflexivity.
  - reflexivity.
  - reflexivity.
  - reflexivity.
  - rewrite Hrun. split; [reflexivity|]. split.
    + cbn [snd]. rewrite Hrequests. reflexivity.
    + cbn [snd]. exact Hparams.
Defined.



(** [get_first_fetch_fails] with a client that rejects every request. *)
Lemma get_first_fetch_fails_example :
  let this := sample_counter "2019-01-01" 1 in
  fst (get (RT := sample_runtime) failing_api commits_field 1 this (initial_world 1))
  = Normal {| projects := 0; commits := 0 |}
  /\ fst (getRepos (RT := sample_runtime) failing_api 1 this (reposEndpoint this)
            None (initial_world 1))
     = Normal (VArr []).
Proof.
  cbv zeta.
  destruct (get_first_fetch_fails (RT := sample_runtime) failing_api commits_field
              0 (sample_counter "2019-01-01" 1) (initial_world 1)
              (snd (getFromAPI failing_api (sample_counter "2019-01-01" 1)
                      (reposEndpoint (sample_counter "2019-01-01" 1))
                      (VObj (params (initial_world 1))) ∅ (initial_world 1))))
    as (Hrepos & Hget & _).
  - reflexivity.
  - rewrite Hget, (Hrepos None). split; reflexivity.
Defined.

(** [getFromAPI_success_body] on a response with an empty-string body. *)
Lemma getFromAPI_success_body_example :
  fst (getFromAPI (constant_api (ok_response (VStr ""))) (sample_counter "" 1)
         "https://example.org/api/repos" (VObj ∅) ∅ (initial_world 1))
  = Normal (VBool false).
Proof.
  destruct (getFromAPI_success_body (constant_api (ok_response (VStr "")))
              (sample_counter "" 1) "https://example.org/api/repos" (VObj ∅) ∅
              (initial_world 1)
              {[ "status" := VInt 200; "data" := VStr "" ]} (VStr ""))
    as (_ & Hempty & _).
  - reflexivity.
  - reflexivity.
  - apply Hempty. right. right. reflexivity.
Defined.

(** C8 as stated fails on a body that is the number 0: the body is
    neither empty nor null, yet [false] is returned in its place. *)
Lemma getFromAPI_zero_body :
  empty_or_null (VInt 0) = false
  /\ fst (getFromAPI (constant_api (ok_response (VInt 0))) (sample_counter "" 1)
            "https://example.org/api/repos" (VObj ∅) ∅ (initial_world 1))
     = Normal (VBool false)
  /\ fst (getFromAPI (constant_api (ok_response (VInt 0))) (sample_counter "" 1)
            "https://example.org/api/repos" (VObj ∅) ∅ (initial_world 1))
     <> Normal (body_or_sentinel (VInt 0)).
Proof.
  split; [reflexivity|]. split; [reflexivity|].
  intros H. discriminate H.
Qed.

(** [params_only_page_changes] on a walk over three pages: the [sort]
    parameter is the one the walk started with. *)
Lemma params_only_page_changes_example :
  let api := paged_api [full_page "2019-05-01"; full_page "2019-04-01";
                        short_page "2019-03-01"] in
  let this := sample_counter "" 1 in
  params (snd (get (RT := sample_runtime) api commits_field 3 this
                 (initial_world 1))) !! "sort"
  = Some (VStr "updated").
Proof.
  cbv zeta.
  destruct (params_only_page_changes (RT := sample_runtime)
              (paged_api [full_page "2019-05-01"; full_page "2019-04-01";
                          short_page "2019-03-01"])
              commits_field 3 (sample_counter "" 1)
              (reposEndpoint (sample_counter "" 1)) None (initial_world 1) "sort")
    as (_ & _ & _ & Hget).
  - discriminate.
  - rewrite Hget. reflexivity.
Defined.



(** C7 on the code.  The client is a fixed function of the request, the
    instance and the counting strategy are the same for both calls, and the
    listing has two pages (100 and 37 repos, one commit each).  The first
    [get()] counts all 137 repos and leaves [page] at 2; the second starts
    from page 2 and counts 37. *)
Theorem get_twice_differs :
  let api := paged_api [full_page "2019-05-01"; short_page "2019-03-01"] in
  (forall history history' options, api history options = api history' options)
  /\ fst (get_twice (RT := sample_runtime) api commits_field 5
            (sample_counter "" 1) (initial_world 1))
     = Normal ({| projects := 137; commits := 137 |},
               {| projects := 37; commits := 37 |})
  /\ params (snd (get (RT := sample_runtime) api commits_field 5
                    (sample_counter "" 1) (initial_world 1))) !! "page"
     = Some (VInt 2).
Proof.
  cbv zeta. split; [reflexivity|].
  split; reflexivity.
Qed.

(** * Further properties of the aggregation loop *)

Lemma expected_totals_cons (minCommits : num) (n : Z) (counts : list Z) :
  expected_totals minCommits (n :: counts) =
  {| projects := (if is_project minCommits n then 1 else 0)
                 + projects (expected_totals minCommits counts);
     commits := (if is_active n then n else 0)
                + commits (expected_totals minCommits counts) |}.
Proof.
  unfold expected_totals, Zsum. cbn [List.filter projects commits].
  destruct (is_project minCommits n), (is_active n);
    cbn [length fold_right]; f_equal; lia.
Qed.

Lemma is_project_active (minCommits : num) (n : Z) :
  is_project minCommits n = true -> is_active n = true /\ 1 <= n.
Proof.
  unfold is_project, is_active. intros H.
  apply andb_true_iff in H as [H _]. split; [exact H|].
  apply Z.ltb_lt in H. lia.
Qed.

Lemma is_project_threshold (m n : Z) :
  is_project (Int m) n = true -> m <= n.
Proof.
  unfold is_project. intros H. apply andb_true_iff in H as [_ H].
  simpl in H. apply Z.leb_le, H.
Qed.

Lemma expected_totals_bounds (minCommits : num) (counts : list Z) :
  0 <= projects (expected_totals minCommits counts)
  /\ projects (expected_totals minCommits counts) <= Z.of_nat (length counts)
  /\ projects (expected_totals minCommits counts)
     <= commits (expected_totals minCommits counts)
  /\ forall m, minCommits = Int m ->
       m * projects (expected_totals minCommits counts)
       <= commits (expected_totals minCommits counts).
Proof.
  induction counts as [|n counts (IH0 & IH1 & IH2 & IH3)].
  - simpl. repeat split; try lia.
  - rewrite expected_totals_cons. cbn [projects commits length].
    destruct (is_project minCommits n) eqn:Hp.
    + destruct (is_project_active _ _ Hp) as [Ha Hn]. rewrite Ha.
      repeat split; try lia.
      intros m ->. specialize (IH3 m eq_refl).
      apply is_project_threshold in Hp. lia.
    + assert (0 <= (if is_active n then n else 0)).
      { unfold is_active. destruct (Z.ltb 0 n) eqn:E; [apply Z.ltb_lt in E|]; lia. }
      repeat split; try lia.
      intros m ->. specialize (IH3 m eq_refl). lia.
Qed.

Lemma expected_totals_Permutation (minCommits : num) (counts counts' : list Z) :
  Permutation counts counts' ->
  expected_totals minCommits counts = expected_totals minCommits counts'.
Proof.
  induction 1 as [|n l l' _ IH|a b l|l1 l2 l3 _ IH1 _ IH2].
  - reflexivity.
  - rewrite !expected_totals_cons, IH. reflexivity.
  - rewrite !expected_totals_cons. cbn [projects commits]. f_equal; lia.
  - congruence.
Qed.

Lemma expected_totals_app (minCommits : num) (counts counts' : list Z) :
  expected_totals minCommits (counts ++ counts') =
  {| projects := projects (expected_totals minCommits counts)
                 + projects (expected_totals minCommits counts');
     commits := commits (expected_totals minCommits counts)
                + commits (expected_totals minCommits counts') |}.
Proof.
  induction counts as [|n counts IH].
  - cbn [app]. destruct (expected_totals minCommits counts') as [p c] eqn:E.
    unfold expected_totals, Zsum. simpl. reflexivity.
  - cbn [app]. rewrite !expected_totals_cons, IH. cbn [projects commits].
    f_equal; lia.
Qed.

Section AggregationProperties.
Variable getUsersRepoCommitsCountAll : value -> Z.

Lemma count_loop_closed (this : Counter) (repos : list value) :
  count_loop getUsersRepoCommitsCountAll this repos 0 0 =
  expected_totals (minCommits this) (map getUsersRepoCommitsCountAll repos).
Proof.
  rewrite count_loop_totals.
  destruct (expected_totals _ _) as [p c]. reflexivity.
Qed.

(** X1. The totals of the loop are bounded: [projects] lies between 0 and the
    number of repos, it never exceeds [commits], and with a numeric
    threshold [m] the commits amount to at least [m] per project. *)
Theorem count_loop_bounds (this : Counter) (repos : list value) :
  let totals := count_loop getUsersRepoCommitsCountAll this repos 0 0 in
  0 <= projects totals
  /\ projects totals <= Z.of_nat (length repos)
  /\ projects totals <= commits totals
  /\ match minCommits this with
     | Int m => m * projects totals <= commits totals
     | NaN => True
     end.
Proof.
  cbv zeta. rewrite count_loop_closed.
  destruct (expected_totals_bounds (minCommits this)
              (map getUsersRepoCommitsCountAll repos)) as (H0 & H1 & H2 & H3).
  rewrite length_map in H1. repeat split; try assumption.
  destruct (minCommits this) as [|m] eqn:Hm; [exact I|].
  apply H3. reflexivity.
Qed.

(** X2. The totals do not depend on the order in which the repos are listed. *)
Theorem count_loop_order_independent (this : Counter) (repos repos' : list value) :
  Permutation repos repos' ->
  count_loop getUsersRepoCommitsCountAll this repos 0 0
  = count_loop getUsersRepoCommitsCountAll this repos' 0 0.
Proof.
  intros Hperm. rewrite !count_loop_closed.
  apply expected_totals_Permutation, Permutation_map, Hperm.
Qed.

(** X3. Counting a listing made of two parts gives the sums of the totals of
    the parts, and the loop started from running counts [p] and [c] adds
    them to the totals of a fresh count. *)
Theorem count_loop_additive (this : Counter) (repos repos' : list value)
    (p c : Z) :
  let whole := count_loop getUsersRepoCommitsCountAll this (repos ++ repos') p c in
  let left := count_loop getUsersRepoCommitsCountAll this repos 0 0 in
  let right := count_loop getUsersRepoCommitsCountAll this repos' 0 0 in
  projects whole = p + projects left + projects right
  /\ commits whole = c + commits left + commits right.
Proof.
  cbv zeta. rewrite !count_loop_closed, count_loop_totals, map_app.
  rewrite expected_totals_app. cbn [projects commits]. split; lia.
Qed.

End AggregationProperties.

Lemma expected_totals_commits_any_threshold (m m' : num) (counts : list Z) :
  commits (expected_totals m counts) = commits (expected_totals m' counts).
Proof. reflexivity. Qed.

Lemma expected_totals_projects_antitone (m m' : Z) (counts : list Z) :
  m <= m' ->
  projects (expected_totals (Int m') counts)
  <= projects (expected_totals (Int m) counts).
Proof.
  intros Hle. induction counts as [|n counts IH]; [simpl; lia|].
  rewrite !expected_totals_cons. cbn [projects].
  destruct (is_project (Int m') n) eqn:H'; [|destruct (is_project (Int m) n); lia].
  assert (H : is_project (Int m) n = true).
  { unfold is_project in *. apply andb_true_iff in H' as [Hpos Hge].
    rewrite Hpos. simpl in *. apply Z.leb_le in Hge. apply Z.leb_le. lia. }
  rewrite H. lia.
Qed.

Lemma expected_totals_low_threshold (m : Z) (counts : list Z) :
  m <= 1 -> projects (expected_totals (Int m) counts) = active_count counts.
Proof.
  intros Hm. unfold expected_totals, active_count. cbn [projects].
  do 2 f_equal. induction counts as [|n counts IH]; [reflexivity|].
  cbn [List.filter]. rewrite IH.
  replace (is_project (Int m) n) with (is_active n); [reflexivity|].
  unfold is_project, is_active. simpl.
  destruct (Z.ltb 0 n) eqn:E; [|reflexivity].
  apply Z.ltb_lt in E. symmetry. apply Z.leb_le. lia.
Qed.

Lemma expected_totals_NaN_threshold (counts : list Z) :
  projects (expected_totals NaN counts) = 0.
Proof.
  unfold expected_totals. cbn [projects].
  replace (List.filter (is_project NaN) counts) with (@nil Z); [reflexivity|].
  induction counts as [|n counts IH]; [reflexivity|].
  cbn [List.filter]. unfold is_project at 1. simpl.
  rewrite andb_false_r. exact IH.
Qed.

Section ThresholdProperties.
Variable getUsersRepoCommitsCountAll : value -> Z.

(** X4. The threshold [minCommits] bears on [projects] only: two instances
    that differ in nothing but the threshold report the same [commits], and
    the one with the higher threshold reports no more [projects]. *)
Theorem count_loop_threshold_monotone (this this' : Counter)
    (repos : list value) (m m' : Z) :
  minCommits this = Int m ->
  minCommits this' = Int m' ->
  m <= m' ->
  commits (count_loop getUsersRepoCommitsCountAll this' repos 0 0)
  = commits (count_loop getUsersRepoCommitsCountAll this repos 0 0)
  /\ projects (count_loop getUsersRepoCommitsCountAll this' repos 0 0)
     <= projects (count_loop getUsersRepoCommitsCountAll this repos 0 0).
Proof.
  intros Hm Hm' Hle. rewrite !count_loop_closed, Hm, Hm'. split.
  - apply expected_totals_commits_any_threshold.
  - apply expected_totals_projects_antitone, Hle.
Qed.

(** X5. The threshold is not validated.  A threshold of 1 or less (0 and
    negative numbers included) makes every repo with a positive count a
    project; a threshold of NaN makes no repo a project, while the commits
    are still summed. *)
Theorem count_loop_degenerate_threshold (this : Counter) (repos : list value) :
  (forall m, minCommits this = Int m -> m <= 1 ->
     projects (count_loop getUsersRepoCommitsCountAll this repos 0 0)
     = active_count (map getUsersRepoCommitsCountAll repos))
  /\ (minCommits this = NaN ->
      projects (count_loop getUsersRepoCommitsCountAll this repos 0 0) = 0
      /\ commits (count_loop getUsersRepoCommitsCountAll this repos 0 0)
         = Zsum (List.filter is_active (map getUsersRepoCommitsCountAll repos))).
Proof.
  rewrite count_loop_closed. split.
  - intros m -> Hm. apply expected_totals_low_threshold, Hm.
  - intros ->. split; [apply expected_totals_NaN_threshold | reflexivity].
Qed.

End ThresholdProperties.

(** ** The base class on its own *)

Section BaseClass.
Context `{RT : Runtime}.
Variable axios : list (gmap string value) -> gmap string value -> outcome.

Lemma count_loop_base (this : Counter) (repos : list value) :
  forall p c, count_loop BaseCounter_getUsersRepoCommitsCountAll this repos p c
              = {| projects := p; commits := c |}.
Proof.
  induction repos as [|repo rest IH]; intros p c; [reflexivity|].
  cbn [count_loop]. unfold BaseCounter_getUsersRepoCommitsCountAll at 1.
  simpl. apply IH.
Qed.

(** X6. With the counting strategy of the base class, which returns 0 for
    every repo, [get()] reports zero projects and zero commits whatever
    the listing returns; the listing is still fetched in full. *)
Theorem get_base_class_counts_nothing (fuel : nat) (this : Counter)
    (w w1 : World) (totals : Totals) :
  get axios BaseCounter_getUsersRepoCommitsCountAll fuel this w = (Normal totals, w1) ->
  totals = {| projects := 0; commits := 0 |}
  /\ exists repos, getAllRepos axios fuel this w = (Normal repos, w1).
Proof.
  unfold get. unfold_M.
  destruct (getAllRepos axios fuel this w) as [[repos|e|s] w2]; try discriminate.
  destruct repos as [| |b|n|s|items|body]; try discriminate.
  - intros [= <- <-]. eauto.
  - intros [= <- <-]. eauto.
  - rewrite count_loop_base. intros [= <- <-]. eauto.
  - destruct (body !! "length") as [count|]; [|intros [= <- <-]; eauto].
    destruct (to_number count) as [n|e|s]; try discriminate.
    rewrite count_loop_base. intros [= <- <-]. eauto.
Qed.

End BaseClass.

(** * Further properties of option resolution *)

(** X7. Every resolved option has the [typeof] of its default, and every
    resolved key is a key of the defaults: whatever the user passes, the
    instance holds strings where the defaults are strings, a number where
    the default is a number, and so on. *)
Theorem resolveOptions_keeps_types (defaultOptions options this : gmap string value)
    (option : string) (resolved : value) :
  resolveOptions defaultOptions options = Normal this ->
  this !! option = Some resolved ->
  exists defaultValue,
    defaultOptions !! option = Some defaultValue
    /\ typeof resolved = typeof defaultValue.
Proof.
  intros Hres. apply resolveOptions_Normal in Hres as [-> _].
  rewrite resolved_options_lookup.
  destruct (defaultOptions !! option) as [d|]; [|discriminate].
  simpl. intros [= <-]. exists d. split; [reflexivity|].
  apply option_choice_typeof.
Qed.

Lemma resolved_options_idempotent (defaultOptions options : gmap string value) :
  resolved_options defaultOptions (resolved_options defaultOptions options)
  = resolved_options defaultOptions options.
Proof.
  apply map_eq. intros k. rewrite !resolved_options_lookup.
  destruct (defaultOptions !! k) as [d|] eqn:Hd; [|reflexivity].
  simpl. f_equal. unfold option_choice at 1.
  rewrite resolved_options_lookup, Hd. simpl.
  rewrite option_choice_typeof, String.eqb_refl. reflexivity.
Qed.

Lemma resolved_options_defaults (defaultOptions : gmap string value) :
  resolved_options defaultOptions ∅ = defaultOptions
  /\ resolved_options defaultOptions defaultOptions = defaultOptions.
Proof.
  split; apply map_eq; intros k; rewrite resolved_options_lookup.
  - destruct (defaultOptions !! k) as [d|]; [|reflexivity].
    simpl. unfold option_choice. rewrite lookup_empty. reflexivity.
  - destruct (defaultOptions !! k) as [d|] eqn:Hd; [|reflexivity].
    simpl. unfold option_choice. rewrite Hd, String.eqb_refl. reflexivity.
Qed.

(** X8. Resolution is idempotent: a configuration that the constructor
    resolved, passed as the options of another instance, resolves to
    itself.  With defaults that have no own [hasOwnProperty], no options
    resolve to the defaults, and so do the defaults themselves. *)
Theorem resolveOptions_idempotent (defaultOptions options : gmap string value) :
  (forall this,
     resolveOptions defaultOptions options = Normal this ->
     resolveOptions defaultOptions this = Normal this)
  /\ (defaultOptions !! "hasOwnProperty" = None ->
      resolveOptions defaultOptions ∅ = Normal defaultOptions
      /\ resolveOptions defaultOptions defaultOptions = Normal defaultOptions).
Proof.
  split.
  - intros this Hres. apply resolveOptions_Normal in Hres as [-> Hplain].
    rewrite resolveOptions_eq.
    destruct (decide (defaultOptions = ∅)) as [-> | Hne].
    { unfold resolved_options. rewrite map_imap_empty. reflexivity. }
    destruct (Hplain Hne) as [Hd _]. rewrite Hd.
    rewrite resolved_options_lookup, Hd. simpl.
    rewrite resolved_options_idempotent. reflexivity.
  - intros Hd. destruct (resolved_options_defaults defaultOptions) as [H0 H1].
    split.
    + rewrite resolveOptions_plain, H0; [reflexivity | exact Hd | apply lookup_empty].
    + rewrite resolveOptions_plain, H1; [reflexivity | exact Hd | exact Hd].
Qed.



(** * Further properties of the HTTP accessor *)

Section AccessorProperties.
Variable axios : list (gmap string value) -> gmap string value -> outcome.

(** X10. When the client rejects a request with an error that carries a
    response with a truthy body, the diagnostic line ends with exactly that
    body; the store is otherwise left as after any request. *)
Theorem getFromAPI_logs_server_payload (this : Counter) (endpoint : string)
    (p : value) (extraOptions : gmap string value) (w : World)
    (error : gmap string value) (response payload : value) :
  axios (requests w) (request_options this endpoint p extraOptions)
    = Rejected (VObj error) ->
  error !! "response" = Some response ->
  get_prop response "data" = Normal payload ->
  truthy response = true ->
  truthy payload = true ->
  getFromAPI axios this endpoint p extraOptions w =
  (Normal (VBool false),
   {| params := params w;
      requests := requests w ++ [request_options this endpoint p extraOptions];
      console := console w ++
                 [[VStr ("   " +:+ className this +:+ " -");
                   VStr ("Failed call to " +:+ endpoint +:+ " with error:");
                   payload]] |}).
Proof.
  intros Hax Hresp Hdata Htr Htp.
  rewrite getFromAPI_eq. cbv zeta. rewrite Hax.
  unfold after_failure, error_payload. rewrite Hresp, Htr, Hdata, Htp.
  reflexivity.
Qed.

(** X11. When the error carries no response, or is not an object at all (a
    thrown string, a network failure), the diagnostic line ends with the
    empty string. *)
Theorem getFromAPI_logs_empty_payload (this : Counter) (endpoint : string)
    (p : value) (extraOptions : gmap string value) (w : World) (error : value) :
  axios (requests w) (request_options this endpoint p extraOptions)
    = Rejected error ->
  (forall e, error = VObj e -> e !! "response" = None) ->
  console (snd (getFromAPI axios this endpoint p extraOptions w)) =
  console w ++
  [[VStr ("   " +:+ className this +:+ " -");
    VStr ("Failed call to " +:+ endpoint +:+ " with error:");
    VStr ""]].
Proof.
  intros Hax Hno. rewrite getFromAPI_eq. cbv zeta. rewrite Hax.
  cbn [snd after_failure console]. do 4 f_equal.
  destruct error as [| |b|n|s|l|e]; try reflexivity.
  unfold error_payload. rewrite (Hno e eq_refl). reflexivity.
Qed.

(** X12. The option object handed to the client takes every property of
    [extraOptions] as it is, so a caller can replace the method, the
    credentials, the headers or the query parameters; every other property
    is the one the accessor sets. *)
Theorem getFromAPI_extra_options_win (this : Counter) (endpoint : string)
    (p : value) (extraOptions : gmap string value) (w : World) :
  exists options,
    requests (snd (getFromAPI axios this endpoint p extraOptions w))
    = requests w ++ [options]
    /\ (forall k v, extraOptions !! k = Some v -> options !! k = Some v)
    /\ (forall k, extraOptions !! k = None ->
          options !! k = request_options this endpoint p ∅ !! k)
    /\ request_options this endpoint p ∅ !! "method" = Some (VStr "GET")
    /\ request_options this endpoint p ∅ !! "url" = Some (VStr endpoint)
    /\ request_options this endpoint p ∅ !! "auth"
       = Some (VObj {[ "username" := VStr (username this);
                       "password" := VStr (accessToken this) ]}).
Proof.
  exists (request_options this endpoint p extraOptions).
  split; [|split; [|split; [|split; [|split]]]].
  - destruct (getFromAPI axios this endpoint p extraOptions w) as [r w1] eqn:H.
    apply getFromAPI_world in H as [_ H]. exact H.
  - intros k v Hk. unfold request_options.
    apply lookup_union_Some_l, Hk.
  - intros k Hk. unfold request_options.
    rewrite (lookup_union_r _ _ _ Hk), (left_id_L ∅ (∪)). reflexivity.
  - unfold request_options. rewrite (left_id_L ∅ (∪)).
    rewrite lookup_insert_eq. reflexivity.
  - unfold request_options. rewrite (left_id_L ∅ (∪)).
    rewrite lookup_insert_ne by discriminate.
    rewrite lookup_insert_eq. reflexivity.
  - unfold request_options. rewrite (left_id_L ∅ (∪)).
    rewrite !lookup_insert_ne by discriminate.
    rewrite lookup_singleton_eq. reflexivity.
Qed.

End AccessorProperties.

(** * Further properties of the lister *)

Lemma js_trim_blank (s : string) :
  String.eqb (js_trim s) "" = forallb is_ws (list_ascii_of_string s).
Proof.
  unfold js_trim. induction s as [|c s IH]; [reflexivity|].
  cbn [trim_start list_ascii_of_string forallb].
  destruct (is_ws c) eqn:Hc.
  - simpl. exact IH.
  - cbn [trim_end]. rewrite Hc. reflexivity.
Qed.

Lemma num_lt_NaN_r (d : num) : num_lt d NaN = false.
Proof. destruct d; reflexivity. Qed.


Section ListerProperties.
Context `{RT : Runtime}.
Variable axios : list (gmap string value) -> gmap string value -> outcome.

Lemma forallb_is_ws_false (l : list ascii) (c : ascii) :
  In c l -> is_ws c = false -> forallb is_ws l = false.
Proof.
  intros Hin Hc. destruct (forallb is_ws l) eqn:E; [|reflexivity].
  rewrite forallb_forall in E. specialize (E c Hin). congruence.
Qed.

(** X13. [getAllRepos] lists with a date bound exactly when [fromDate] is not
    blank.  A [fromDate] made of spaces, tabs and line breaks only is no
    bound at all; a [fromDate] with any other ASCII character is handed to
    the date parser as it is, untrimmed and whatever it holds, and the
    date built is the bound. *)
Theorem getAllRepos_bound_iff_not_blank (fuel : nat) (this : Counter) (w : World) :
  (forallb is_ws (list_ascii_of_string (fromDate this)) = true ->
   getAllRepos axios fuel this w
   = getRepos axios fuel this (reposEndpoint this) None w)
  /\ (forall c, In c (list_ascii_of_string (fromDate this)) ->
        is_ws c = false -> (nat_of_ascii c < 128)%nat ->
        getAllRepos axios fuel this w
        = getRepos axios fuel this (reposEndpoint this)
            (Some (Date_parse (fromDate this))) w).
Proof.
  rewrite getAllRepos_eq, js_trim_blank. split.
  - intros ->. reflexivity.
  - intros c Hin Hc _. rewrite (forallb_is_ws_false _ c Hin Hc). reflexivity.
Qed.

Lemma date_cutoff_invalid_bound (this : Counter) (items : list value) (cut : bool) :
  date_cutoff this (Some NaN) items = Normal cut -> cut = false.
Proof.
  unfold date_cutoff. destruct (truthy _); [|intros [= <-]; reflexivity].
  destruct (get_prop _ _) as [updated|e|s]; simpl; try discriminate.
  destruct (new_Date updated) as [d|e|s]; simpl; try discriminate.
  rewrite num_lt_NaN_r. intros [= <-]. reflexivity.
Qed.

Lemma object_date_cutoff_invalid_bound (this : Counter)
    (body : gmap string value) (count : value) (cut : bool) :
  object_date_cutoff this (Some NaN) body count = Normal cut -> cut = false.
Proof.
  unfold object_date_cutoff. destruct (truthy _); [|intros [= <-]; reflexivity].
  destruct (to_number count) as [n|e|s]; simpl; try discriminate.
  destruct (get_prop _ _) as [updated|e|s]; simpl; try discriminate.
  destruct (new_Date updated) as [d|e|s]; simpl; try discriminate.
  rewrite num_lt_NaN_r. intros [= <-]. reflexivity.
Qed.

(** X14. A [fromDate] that does not parse gives a date object whose time value
    is NaN, and such a bound never ends the walk: whenever [getRepos]
    returns with it, it returns what it returns without any bound, and
    leaves the same store. *)
Theorem getRepos_invalid_bound_is_no_bound (fuel : nat) (this : Counter)
    (endpoint : string) (w : World) (v : value) :
  fst (getRepos axios fuel this endpoint (Some NaN) w) = Normal v ->
  getRepos axios fuel this endpoint None w
  = getRepos axios fuel this endpoint (Some NaN) w.
Proof.
  revert w v. induction fuel as [|fuel IH]; intros w v H; [discriminate H|].
  rewrite getRepos_S in H. rewrite !getRepos_S.
  destruct (getFromAPI axios this endpoint (VObj (params w)) ∅ w)
    as [[repos|e|s] w1]; try reflexivity.
  destruct (negb (truthy repos)); [reflexivity|].
  destruct repos as [| |b|n|s|items|body]; try reflexivity.
  - unfold page_result in *. unfold_M.
    rewrite date_cutoff_no_bound.
    destruct (date_cutoff this (Some NaN) items) as [cut|e|s] eqn:Hcut;
      try discriminate H.
    apply date_cutoff_invalid_bound in Hcut as ->.
    unfold next_page in *. destruct (Z.eqb _ _); [|reflexivity].
    unfold_M. destruct (increment_page w1) as [[[]|e|s] w2]; try reflexivity.
    destruct (getRepos axios fuel this endpoint (Some NaN) w2)
      as [[newRepos|e|s] w3] eqn:Hrec; try discriminate H.
    rewrite (IH w2 newRepos) by (rewrite Hrec; reflexivity).
    rewrite Hrec. reflexivity.
  - destruct (body !! "length") as [count|]; [|reflexivity].
    unfold object_result in *. unfold_M.
    change (object_date_cutoff this None body count) with (@Normal bool false).
    destruct (object_date_cutoff this (Some NaN) body count) as [cut|e|s] eqn:Hcut;
      try discriminate H.
    apply object_date_cutoff_invalid_bound in Hcut as ->.
    unfold object_next_page in *.
    match goal with |- context [if ?c then _ else _] => destruct c end;
      [|reflexivity].
    unfold_M. destruct (increment_page w1) as [[[]|e|s] w2]; try reflexivity.
    destruct (getRepos axios fuel this endpoint (Some NaN) w2)
      as [[newRepos|e|s] w3] eqn:Hrec; try discriminate H.
Qed.



(** A call of the accessor writes a line only when it returns [false]. *)
Lemma getFromAPI_outcome (this : Counter) (endpoint : string) (p : value)
    (extraOptions : gmap string value) (w : World) :
  exists v lines,
    getFromAPI axios this endpoint p extraOptions w =
    (Normal v,
     {| params := params w;
        requests := requests w ++ [request_options this endpoint p extraOptions];
        console := console w ++ lines |})
    /\ (lines = [] \/ (exists line, lines = [line]) /\ v = VBool false).
Proof.
  rewrite getFromAPI_eq. cbv zeta.
  destruct (axios _ _) as [response | error].
  - destruct (get_prop response "data") as [data | e | s].
    + exists (js_or data (VBool false)), []. unfold after_request.
      rewrite app_nil_r. auto.
    + eexists _, [_]. split; [reflexivity|]. right. eauto.
    + eexists _, [_]. split; [reflexivity|]. right. eauto.
  - eexists _, [_]. split; [reflexivity|]. right. eauto.
Qed.

(** X16. One run of [getRepos] writes at most one diagnostic line, and the
    walk ends at the fetch that failed: a run that wrote a line has ended,
    by returning what was listed before or, where an earlier body was not
    an array, by raising at [repos.concat]. *)
Theorem getRepos_logs_at_most_once (fuel : nat) (this : Counter)
    (endpoint : string) (fromDate : option num) (w : World) :
  exists lines,
    console (snd (getRepos axios fuel this endpoint fromDate w))
    = console w ++ lines
    /\ (length lines <= 1)%nat
    /\ (lines <> [] ->
        (exists v, fst (getRepos axios fuel this endpoint fromDate w) = Normal v)
        \/ (exists e, fst (getRepos axios fuel this endpoint fromDate w) = Throw e)).
Proof.
  revert w. induction fuel as [|fuel IH]; intros w.
  - exists []. simpl. rewrite app_nil_r. repeat split; [lia | congruence].
  - rewrite getRepos_S.
    destruct (getFromAPI_outcome this endpoint (VObj (params w)) ∅ w)
      as (v & lines0 & -> & Hlines).
    destruct Hlines as [-> | [[line ->] ->]].
    2:{ exists [line]. simpl. repeat split; [lia | eauto]. }
    assert (Hnext : forall w0 : World,
      console w0 = console w ++ [] ->
      forall after : value -> completion value,
      (forall r, (exists v', after r = Normal v') \/ (exists e, after r = Throw e)) ->
      exists lines,
        console (snd ((_ ← increment_page;
                       newRepos ← getRepos axios fuel this endpoint fromDate;
                       lift (after newRepos)) w0))
        = console w ++ lines
        /\ (length lines <= 1)%nat
        /\ (lines <> [] ->
            (exists v',
               fst ((_ ← increment_page;
                     newRepos ← getRepos axios fuel this endpoint fromDate;
                     lift (after newRepos)) w0) = Normal v')
            \/ (exists e,
               fst ((_ ← increment_page;
                     newRepos ← getRepos axios fuel this endpoint fromDate;
                     lift (after newRepos)) w0) = Throw e))).
    { intros w0 Hw0 after Hafter. unfold_M.
      destruct (increment_page_params w0) as (_ & _ & Hc).
      destruct (increment_page w0) as [[[]|e|s] w2]; simpl in Hc;
        try (exists []; simpl; rewrite Hc, Hw0; repeat split; [lia | congruence]).
      destruct (IH w2) as (lines & Hcons & Hlen & Hret).
      exists lines. rewrite Hc, Hw0, app_nil_r in Hcons.
      destruct (getRepos axios fuel this endpoint fromDate w2) as [[r|e|s] w3];
        simpl in *.
      - destruct (Hafter r) as [[v' Hv'] | [e He]].
        + rewrite Hv'. simpl. repeat split; eauto.
        + rewrite He. simpl. repeat split; eauto.
      - repeat split; eauto.
      - repeat split; auto; intros Hne;
          destruct (Hret Hne) as [[v' ?] | [e ?]]; discriminate. }
    destruct (negb (truthy v));
      [exists []; simpl; repeat split; [lia | congruence]|].
    destruct v as [| |b|n|s|items|body];
      try (exists []; simpl; repeat split; [lia | congruence]).
    + unfold page_result, next_page. unfold_M.
      destruct (date_cutoff this fromDate items) as [[|]|e|s];
        try (exists []; simpl; repeat split; [lia | congruence]).
      destruct (Z.eqb _ _);
        [|exists []; simpl; repeat split; [lia | congruence]].
      refine (Hnext _ _ (fun r => Normal (js_concat items r)) _);
        [reflexivity | intros r; left; eauto].
    + destruct (body !! "length") as [count|];
        [|exists []; simpl; repeat split; [lia | congruence]].
      unfold object_result, object_next_page. unfold_M.
      destruct (object_date_cutoff this fromDate body count) as [[|]|e|s];
        try (exists []; simpl; repeat split; [lia | congruence]).
      match goal with |- context [if ?c then _ else _] => destruct c end;
        [|exists []; simpl; repeat split; [lia | congruence]].
      refine (Hnext _ _
                (fun _ => Throw (TypeError "repos.concat is not a function")) _);
        [reflexivity | intros r; right; eauto].
Qed.

(** X21. A body that is an object whose [length] is the page size makes
    the call (without a date bound) ask for the next page; the call then
    never returns: once the next pages are back it raises a TypeError,
    since an object has no [concat]. *)
Theorem getRepos_object_page_raises (fuel : nat) (this : Counter)
    (endpoint : string) (w w1 : World) (body : gmap string value) :
  getFromAPI axios this endpoint (VObj (params w)) ∅ w = (Normal (VObj body), w1) ->
  body !! "length" = Some (VInt (itemsPerPage this)) ->
  (forall v, fst (getRepos axios (S fuel) this endpoint None w) <> Normal v)
  /\ (forall w3 newRepos,
        increment_page w1 = (Normal tt, w3) ->
        fst (getRepos axios fuel this endpoint None w3) = Normal newRepos ->
        fst (getRepos axios (S fuel) this endpoint None w)
        = Throw (TypeError "repos.concat is not a function")).
Proof.
  intros Hfetch Hlen. rewrite getRepos_S, Hfetch, Hlen.
  change (negb (truthy (VObj body))) with false. cbv iota.
  unfold object_result, object_next_page, VInt. unfold_M.
  change (object_date_cutoff this None body (VNum (Int (itemsPerPage this))))
    with (@Normal bool false).
  cbv iota. rewrite Z.eqb_refl. split.
  - intros v.
    destruct (increment_page w1) as [[[]|e|s] w2]; try discriminate.
    destruct (getRepos axios fuel this endpoint None w2) as [[r|e|s] w3];
      discriminate.
  - intros w3 newRepos -> Hrec.
    destruct (getRepos axios fuel this endpoint None w3) as [[r|e|s] w4];
      try discriminate Hrec. reflexivity.
Qed.

Lemma world_at_eq (m : gmap string value) (q q' : Z)
    (h h' : list (gmap string value)) (c c' : list (list value)) :
  q = q' -> h = h' -> c = c' -> world_at m q h c = world_at m q' h' c'.
Proof. intros -> -> ->. reflexivity. Qed.

(** The requests and the page counter of a run that starts at page [p]:
    [n] requests for the pages [p], [p+1], ... and [k] increments, where
    every request but the first follows one increment. *)
Lemma getRepos_trace (this : Counter) (endpoint : string)
    (fromDate : option num) (m : gmap string value) (fuel : nat) :
  forall (p : Z) (h : list (gmap string value)) (c : list (list value)),
  exists (n k : nat) (lines : list (list value)),
    (n <= fuel)%nat
    /\ (k = n \/ S k = n)
    /\ snd (getRepos axios fuel this endpoint fromDate (world_at m p h c))
       = world_at m (p + Z.of_nat k)
           (h ++ page_requests this endpoint m p n) (c ++ lines)
    /\ (forall v,
          fst (getRepos axios fuel this endpoint fromDate (world_at m p h c))
          = Normal v -> S k = n).
Proof.
  induction fuel as [|fuel IH]; intros p h c.
  - exists 0%nat, 0%nat, []. repeat split; [lia | auto | | discriminate].
    simpl. apply world_at_eq; [lia | | ]; rewrite app_nil_r; reflexivity.
  - rewrite getRepos_S.
    destruct (getFromAPI_outcome this endpoint
                (VObj (params (world_at m p h c))) ∅ (world_at m p h c))
      as (v & lines0 & -> & Hlines).
    assert (Hone : forall r : completion value,
      exists (n k : nat) (lines : list (list value)),
        (n <= S fuel)%nat /\ (k = n \/ S k = n)
        /\ {| params := params (world_at m p h c);
              requests := requests (world_at m p h c) ++
                [request_options this endpoint
                   (VObj (params (world_at m p h c))) ∅];
              console := console (world_at m p h c) ++ lines0 |}
           = world_at m (p + Z.of_nat k)
               (h ++ page_requests this endpoint m p n) (c ++ lines)
        /\ (forall v0 : value, r = Normal v0 -> S k = n)).
    { intros r. exists 1%nat, 0%nat, lines0. repeat split; [lia | auto | ].
      unfold world_at, page_requests, page_request. simpl.
      rewrite !Z.add_0_r. reflexivity. }
    destruct (negb (truthy v)) eqn:Hfalsy; [apply Hone|].
    destruct Hlines as [-> | [_ ->]]; [|discriminate Hfalsy].
    assert (Hrec : forall after : value -> completion value,
      exists (n k : nat) (lines : list (list value)),
        (n <= S fuel)%nat /\ (k = n \/ S k = n)
        /\ snd ((_ ← increment_page;
                 newRepos ← getRepos axios fuel this endpoint fromDate;
                 lift (after newRepos))
                  {| params := params (world_at m p h c);
                     requests := requests (world_at m p h c) ++
                       [request_options this endpoint
                          (VObj (params (world_at m p h c))) ∅];
                     console := console (world_at m p h c) ++ [] |})
           = world_at m (p + Z.of_nat k)
               (h ++ page_requests this endpoint m p n) (c ++ lines)
        /\ (forall v0 : value,
              fst ((_ ← increment_page;
                    newRepos ← getRepos axios fuel this endpoint fromDate;
                    lift (after newRepos))
                     {| params := params (world_at m p h c);
                        requests := requests (world_at m p h c) ++
                          [request_options this endpoint
                             (VObj (params (world_at m p h c))) ∅];
                        console := console (world_at m p h c) ++ [] |})
              = Normal v0 -> S k = n)).
    { intros after. unfold_M.
      change {| params := params (world_at m p h c);
                requests := requests (world_at m p h c) ++
                  [request_options this endpoint
                     (VObj (params (world_at m p h c))) ∅];
                console := console (world_at m p h c) ++ [] |}
        with (world_at m p (h ++ [page_request this endpoint m p]) (c ++ [])).
      rewrite increment_page_at.
      destruct (IH (p + 1) (h ++ [page_request this endpoint m p]) (c ++ []))
        as (n' & k' & lines & Hn & Hk & Hworld & Hnormal).
      exists (S n'), (S k'), lines.
      destruct (getRepos axios fuel this endpoint fromDate
                  (world_at m (p + 1) (h ++ [page_request this endpoint m p])
                     (c ++ [])))
        as [r w3].
      cbn [fst snd] in Hworld, Hnormal.
      assert (Hw : w3 = world_at m (p + Z.of_nat (S k'))
                     (h ++ page_requests this endpoint m p (S n')) (c ++ lines)).
      { rewrite Hworld. apply world_at_eq; [lia | | ].
        - rewrite page_requests_S, <- app_assoc. reflexivity.
        - rewrite app_nil_r. reflexivity. }
      destruct r as [r|e|s]; cbn [fst snd].
      - destruct (after r); cbn [fst snd];
          (repeat split; [lia | lia | exact Hw | ]);
          intros ? _; specialize (Hnormal r eq_refl); lia.
      - repeat split; [lia | lia | exact Hw | discriminate].
      - repeat split; [lia | lia | exact Hw | discriminate]. }
    destruct v as [| |b|n|s|items|body]; try apply Hone.
    + unfold page_result, next_page. unfold_M.
      destruct (date_cutoff this fromDate items) as [[|]|e|s]; try apply Hone.
      destruct (Z.eqb _ _); [|apply Hone].
      exact (Hrec (fun r => Normal (js_concat items r))).
    + destruct (body !! "length") as [count|]; [|apply Hone].
      unfold object_result, object_next_page. unfold_M.
      destruct (object_date_cutoff this fromDate body count) as [[|]|e|s];
        try apply Hone.
      match goal with |- context [if ?c then _ else _] => destruct c end;
        [|apply Hone].
      exact (Hrec (fun _ => Throw (TypeError "repos.concat is not a function"))).
Qed.

(** X17. Starting from a numeric [page] [p0], the requests that a run of
    [getRepos] issues are requests for the consecutive pages [p0], [p0+1],
    ..., none skipped and none repeated, each with the other parameters
    unchanged; [page] is left at [p0] plus the number of increments, which
    is the number of requests minus one whenever the run returns. *)
Theorem getRepos_requests_consecutive_pages (fuel : nat) (this : Counter)
    (endpoint : string) (fromDate : option num) (w : World) (p0 : Z) :
  params w !! "page" = Some (VInt p0) ->
  exists n k : nat,
    (n <= fuel)%nat
    /\ (k = n \/ S k = n)
    /\ requests (snd (getRepos axios fuel this endpoint fromDate w))
       = requests w ++ page_requests this endpoint (params w) p0 n
    /\ params (snd (getRepos axios fuel this endpoint fromDate w))
       = <["page" := VInt (p0 + Z.of_nat k)]> (params w)
    /\ (forall v, fst (getRepos axios fuel this endpoint fromDate w) = Normal v ->
          S k = n).
Proof.
  intros Hpage.
  destruct (getRepos_trace this endpoint fromDate (params w) fuel p0
              (requests w) (console w))
    as (n & k & lines & Hn & Hk & Hworld & Hnormal).
  assert (Hw : world_at (params w) p0 (requests w) (console w) = w).
  { unfold world_at. rewrite (insert_id _ _ _ Hpage). destruct w; reflexivity. }
  rewrite Hw in Hworld, Hnormal.
  exists n, k. rewrite Hworld. repeat split; assumption.
Qed.

(** X18. The recursion of [getRepos] has no bound of its own.  When the client
    answers every request with a page of exactly [itemsPerPage] repos that
    passes the date test, no number of pages is enough: whatever the
    budget, the run exhausts it, so the call of the source never returns. *)
Theorem getRepos_never_ends_on_full_pages (fuel : nat) (this : Counter)
    (endpoint : string) (fromDate : option num) (w : World) :
  (exists n, to_number (default VUndefined (params w !! "page")) = Normal n) ->
  (forall history options, exists response items,
     axios history options = Resolved response
     /\ get_prop response "data" = Normal (VArr items)
     /\ Z.of_nat (length items) = itemsPerPage this
     /\ date_cutoff this fromDate items = Normal false) ->
  fst (getRepos axios fuel this endpoint fromDate w) = Stuck OutOfFuel.
Proof.
  intros Hpage Hfull. revert w Hpage.
  induction fuel as [|fuel IH]; intros w [n Hn]; [reflexivity|].
  rewrite getRepos_S, getFromAPI_eq. cbv zeta.
  destruct (Hfull (requests w)
              (request_options this endpoint (VObj (params w)) ∅))
    as (response & items & -> & -> & Hlen & Hcut).
  simpl. unfold page_result, next_page. unfold_M.
  rewrite Hcut. apply Z.eqb_eq in Hlen. rewrite Hlen.
  unfold increment_page. cbn [params after_request]. rewrite Hn.
  match goal with |- context [getRepos axios fuel this endpoint fromDate ?w2] =>
    specialize (IH w2);
    destruct (getRepos axios fuel this endpoint fromDate w2) as [r w3]
  end.
  simpl in IH. rewrite IH; [reflexivity|].
  rewrite lookup_insert_eq. simpl. eauto.
Qed.

Lemma page_requests_snoc (this : Counter) (endpoint : string)
    (m : gmap string value) (p : Z) (k : nat) :
  page_requests this endpoint m p (S k) =
  page_requests this endpoint m p k
  ++ [page_request this endpoint m (p + Z.of_nat k)].
Proof.
  unfold page_requests. rewrite seq_S, map_app. reflexivity.
Qed.

(** A walk over full pages, followed by whatever the rest of the walk
    returns. *)
Lemma getRepos_walk_then (this : Counter) (endpoint : string)
    (fromDate : option num) (m : gmap string value) (c : list (list value))
    (full : list (list value)) :
  forall (p : Z) (h : list (gmap string value)) (fuel : nat)
         (rest : list value) (wEnd : World),
  Forall (fun items => Z.of_nat (length items) = itemsPerPage this
                       /\ date_cutoff this fromDate items = Normal false) full ->
  (forall (k : nat) (items : list value),
     full !! k = Some items ->
     exists response,
       axios (h ++ page_requests this endpoint m p k)
             (page_request this endpoint m (p + Z.of_nat k)) = Resolved response
       /\ get_prop response "data" = Normal (VArr items)) ->
  getRepos axios fuel this endpoint fromDate
    (world_at m (p + Z.of_nat (length full))
       (h ++ page_requests this endpoint m p (length full)) c)
  = (Normal (VArr rest), wEnd) ->
  getRepos axios (length full + fuel) this endpoint fromDate (world_at m p h c)
  = (Normal (VArr (concat full ++ rest)), wEnd).
Proof.
  induction full as [|items more IH]; intros p h fuel rest wEnd Hfull Hserve Hrest.
  - simpl in *. unfold page_requests in Hrest. simpl in Hrest.
    rewrite Z.add_0_r, app_nil_r in Hrest. exact Hrest.
  - cbn [length Nat.add].
    destruct (Hserve 0%nat items eq_refl) as (response & Hax & Hdata).
    unfold page_requests in Hax. simpl in Hax.
    rewrite app_nil_r, Z.add_0_r in Hax.
    rewrite (getRepos_page _ _ _ _ _ _ _ _ (getFromAPI_page _ _ _ _ _ _ c _ _ Hax Hdata)).
    inversion Hfull as [|? ? [Hlen Hcut] Hmore]; subst.
    rewrite (page_result_no_cut _ _ _ _ _ Hcut).
    unfold next_page. apply Z.eqb_eq in Hlen. rewrite Hlen.
    unfold_M. rewrite increment_page_at.
    rewrite (IH (p + 1) (h ++ [page_request this endpoint m p]) fuel rest wEnd).
    + simpl. rewrite app_assoc. reflexivity.
    + exact Hmore.
    + intros k items' Hk.
      destruct (Hserve (S k) items' Hk) as (response' & Hax' & Hdata').
      exists response'. split; [|exact Hdata'].
      rewrite page_requests_S in Hax'.
      replace (h ++ page_request this endpoint m p
                 :: page_requests this endpoint m (p + 1) k)
        with ((h ++ [page_request this endpoint m p])
                ++ page_requests this endpoint m (p + 1) k) in Hax'
        by (rewrite <- app_assoc; reflexivity).
      replace (p + 1 + Z.of_nat k) with (p + Z.of_nat (S k)) by lia.
      exact Hax'.
    + rewrite <- Hrest. cbn [length]. f_equal.
      apply world_at_eq; [lia | | reflexivity].
      rewrite page_requests_S, <- app_assoc. reflexivity.
Qed.

(** X19. A failure on a later page truncates the listing without an error.
    When the client serves the full pages [full] and rejects the request
    that follows them, [getRepos] returns the repos of [full], logs the one
    failure, and leaves [page] at the number of the page that failed. *)
Theorem getRepos_failure_truncates (fuel : nat) (this : Counter)
    (endpoint : string) (fromDate : option num) (w : World) (p0 : Z)
    (full : list (list value)) (error : value) :
  params w !! "page" = Some (VInt p0) ->
  (length full < fuel)%nat ->
  Forall (fun items => Z.of_nat (length items) = itemsPerPage this
                       /\ date_cutoff this fromDate items = Normal false) full ->
  (forall (k : nat) (items : list value),
     full !! k = Some items ->
     exists response,
       axios (requests w ++ page_requests this endpoint (params w) p0 k)
             (page_request this endpoint (params w) (p0 + Z.of_nat k))
         = Resolved response
       /\ get_prop response "data" = Normal (VArr items)) ->
  axios (requests w ++ page_requests this endpoint (params w) p0 (length full))
        (page_request this endpoint (params w) (p0 + Z.of_nat (length full)))
    = Rejected error ->
  getRepos axios fuel this endpoint fromDate w =
  (Normal (VArr (concat full)),
   {| params := <["page" := VInt (p0 + Z.of_nat (length full))]> (params w);
      requests := requests w ++
                  page_requests this endpoint (params w) p0 (S (length full));
      console := console w ++
                 [[VStr ("   " +:+ className this +:+ " -");
                   VStr ("Failed call to " +:+ endpoint +:+ " with error:");
                   error_payload error]] |}).
Proof.
  intros Hpage Hfuel Hfull Hserve Hfail.
  assert (Hw : world_at (params w) p0 (requests w) (console w) = w).
  { unfold world_at. rewrite (insert_id _ _ _ Hpage). destruct w; reflexivity. }
  destruct (Nat.le_exists_sub (S (length full)) fuel) as (f & -> & _); [lia|].
  replace (f + S (length full))%nat with (length full + S f)%nat by lia.
  rewrite <- Hw at 1.
  erewrite (getRepos_walk_then this endpoint fromDate (params w) (console w) full
              p0 (requests w) (S f) []).
  - rewrite app_nil_r. reflexivity.
  - exact Hfull.
  - exact Hserve.
  - apply getRepos_sentinel. rewrite getFromAPI_eq. cbv zeta.
    cbn [params requests world_at]. unfold page_request in Hfail.
    rewrite Hfail. unfold after_failure. cbn [params requests console world_at].
    rewrite page_requests_snoc, app_assoc. reflexivity.
Qed.

(** With a client that answers by the request alone, a run of [getRepos]
    depends on the store through the page parameters only. *)
Lemma getRepos_fixed_client (this : Counter) (endpoint : string)
    (fromDate : option num) :
  (forall history history' options,
     axios history options = axios history' options) ->
  forall (fuel : nat) (w w' : World),
  params w = params w' ->
  fst (getRepos axios fuel this endpoint fromDate w)
  = fst (getRepos axios fuel this endpoint fromDate w')
  /\ params (snd (getRepos axios fuel this endpoint fromDate w))
     = params (snd (getRepos axios fuel this endpoint fromDate w')).
Proof.
  intros Hfixed. induction fuel as [|fuel IH]; intros w w' Hp; [auto|].
  rewrite !getRepos_S, !getFromAPI_eq. cbv zeta.
  rewrite <- Hp, (Hfixed (requests w') (requests w)).
  destruct (axios (requests w) _) as [response | error]; [|auto].
  destruct (get_prop response "data") as [data | e | s]; try (simpl; auto).
  set (opts := request_options this endpoint (VObj (params w)) ∅).
  assert (Hrec : forall after : value -> completion value,
    fst ((_ ← increment_page;
          newRepos ← getRepos axios fuel this endpoint fromDate;
          lift (after newRepos)) (after_request w opts))
    = fst ((_ ← increment_page;
            newRepos ← getRepos axios fuel this endpoint fromDate;
            lift (after newRepos)) (after_request w' opts))
    /\ params (snd ((_ ← increment_page;
                     newRepos ← getRepos axios fuel this endpoint fromDate;
                     lift (after newRepos)) (after_request w opts)))
       = params (snd ((_ ← increment_page;
                       newRepos ← getRepos axios fuel this endpoint fromDate;
                       lift (after newRepos)) (after_request w' opts)))).
  { intros after. unfold_M. unfold increment_page.
    cbn [params requests console after_request]. rewrite <- Hp.
    destruct (to_number _) as [n|e|s]; try (simpl; auto).
    match goal with
    | |- context [getRepos axios fuel this endpoint fromDate ?a] =>
        match goal with
        | |- context [getRepos axios fuel this endpoint fromDate ?b] =>
            assert_fails (constr_eq a b);
            destruct (IH a b eq_refl) as [Hfst Hsnd];
            destruct (getRepos axios fuel this endpoint fromDate a) as [r1 w1];
            destruct (getRepos axios fuel this endpoint fromDate b) as [r2 w2]
        end
    end.
    simpl in Hfst, Hsnd. subst r2.
    destruct r1 as [r|e|s]; simpl; auto;
      try (destruct (after r); simpl; auto). }
  destruct (negb (truthy (js_or data (VBool false)))); [simpl; auto|].
  destruct (js_or data (VBool false)) as [| |b|n|s|items|body]; try (simpl; auto).
  - unfold page_result, next_page. unfold_M.
    destruct (date_cutoff this fromDate items) as [[|]|e|s]; try (simpl; auto).
    destruct (Z.eqb _ _); [|simpl; auto].
    exact (Hrec (fun r => Normal (js_concat items r))).
  - destruct (body !! "length") as [count|]; [|simpl; auto].
    unfold object_result, object_next_page. unfold_M.
    destruct (object_date_cutoff this fromDate body count) as [[|]|e|s];
      try (simpl; auto).
    match goal with |- context [if ?c then _ else _] => destruct c end;
      [|simpl; auto].
    exact (Hrec (fun _ => Throw (TypeError "repos.concat is not a function"))).
Qed.

Section Repeatable.
Variable getUsersRepoCommitsCountAll : value -> Z.

(** X20. [get()] can be repeated when the first call did not advance [page]:
    with a client that answers by the request alone, a second [get()] on
    the same instance returns what the first returned, provided the first
    left the page parameters as they were (the listing took one page). *)
Theorem get_repeatable_without_paging (fuel : nat) (this : Counter) (w : World) :
  (forall history history' options,
     axios history options = axios history' options) ->
  params (snd (get axios getUsersRepoCommitsCountAll fuel this w)) = params w ->
  fst (get axios getUsersRepoCommitsCountAll fuel this
         (snd (get axios getUsersRepoCommitsCountAll fuel this w)))
  = fst (get axios getUsersRepoCommitsCountAll fuel this w).
Proof.
  intros Hfixed Hsame.
  assert (Hlist : fst (getAllRepos axios fuel this
                         (snd (get axios getUsersRepoCommitsCountAll fuel this w)))
                  = fst (getAllRepos axios fuel this w)).
  { rewrite !getAllRepos_eq.
    apply (getRepos_fixed_client this (reposEndpoint this) _ Hfixed fuel).
    exact Hsame. }
  revert Hlist.
  generalize (snd (get axios getUsersRepoCommitsCountAll fuel this w)).
  intros w' Hlist. unfold get. unfold_M.
  destruct (getAllRepos axios fuel this w') as [r' w1'].
  destruct (getAllRepos axios fuel this w) as [r w1].
  simpl in Hlist. subst r'.
  destruct r as [repos|e|s]; try reflexivity.
  destruct repos as [| |b|n|s|items|body]; try reflexivity.
  destruct (body !! "length") as [count|]; [|reflexivity].
  destruct (to_number count); reflexivity.
Qed.

End Repeatable.

End ListerProperties.

(** * The further properties on concrete runs *)

(** [count_loop_order_independent] on the three sample repos and the same
    repos with the first two exchanged. *)
Lemma count_loop_order_independent_example :
  count_loop commits_field (sample_counter "" 3)
    [sample_repo "2019-04-01" 5; sample_repo "2019-05-01" 0;
     sample_repo "2019-03-01" 2] 0 0
  = count_loop commits_field (sample_counter "" 3) three_repos 0 0.
Proof.
  apply (count_loop_order_independent commits_field (sample_counter "" 3)).
  apply perm_swap.
Defined.

(** [count_loop_threshold_monotone] for thresholds 1 and 3. *)
Lemma count_loop_threshold_monotone_example :
  commits (count_loop commits_field (sample_counter "" 3) three_repos 0 0)
  = commits (count_loop commits_field (sample_counter "" 1) three_repos 0 0)
  /\ projects (count_loop commits_field (sample_counter "" 3) three_repos 0 0)
     <= projects (count_loop commits_field (sample_counter "" 1) three_repos 0 0).
Proof.
  apply (count_loop_threshold_monotone commits_field
           (sample_counter "" 1) (sample_counter "" 3) three_repos 1 3).
  - reflexivity.
  - reflexivity.
  - lia.
Defined.

(** [get_base_class_counts_nothing] on a listing of three repos. *)
Lemma get_base_class_counts_nothing_example :
  count_loop BaseCounter_getUsersRepoCommitsCountAll (sample_counter "" 1)
    three_repos 0 0
  = {| projects := 0; commits := 0 |}.
Proof.
  apply (get_base_class_counts_nothing (RT := sample_runtime)
           (paged_api [three_repos]) 2 (sample_counter "" 1) (initial_world 1)
           (snd (getAllRepos (RT := sample_runtime) (paged_api [three_repos]) 2
                   (sample_counter "" 1) (initial_world 1)))).
  reflexivity.
Defined.

(** [resolveOptions_keeps_types] on a threshold given as a string. *)
Lemma resolveOptions_keeps_types_example :
  exists defaultValue,
    getDefaultOptions !! "minCommits" = Some defaultValue
    /\ typeof (VInt 1) = typeof defaultValue.
Proof.
  apply (resolveOptions_keeps_types getDefaultOptions sample_options
           (resolved_options getDefaultOptions sample_options)
           "minCommits" (VInt 1)).
  - apply resolveOptions_plain; reflexivity.
  - rewrite resolved_options_lookup. reflexivity.
Defined.


(** [getFromAPI_logs_server_payload] on a 404 answered with "Not Found". *)
Lemma getFromAPI_logs_server_payload_example :
  console (snd (getFromAPI (rejecting_api (http_error 404 (VStr "Not Found")))
                  (sample_counter "" 1) "https://example.org/api/repos"
                  (VObj ∅) ∅ (initial_world 1)))
  = [[VStr "   SampleCounter -";
      VStr "Failed call to https://example.org/api/repos with error:";
      VStr "Not Found"]].
Proof.
  rewrite (getFromAPI_logs_server_payload
             (rejecting_api (http_error 404 (VStr "Not Found")))
             (sample_counter "" 1) "https://example.org/api/repos" (VObj ∅) ∅
             (initial_world 1)
             {[ "response" := VObj {[ "status" := VInt 404;
                                      "data" := VStr "Not Found" ]} ]}
             (VObj {[ "status" := VInt 404; "data" := VStr "Not Found" ]})
             (VStr "Not Found")); reflexivity.
Defined.

(** [getFromAPI_logs_empty_payload] on a network error. *)
Lemma getFromAPI_logs_empty_payload_example :
  console (snd (getFromAPI failing_api (sample_counter "" 1)
                  "https://example.org/api/repos" (VObj ∅) ∅ (initial_world 1)))
  = [[VStr "   SampleCounter -";
      VStr "Failed call to https://example.org/api/repos with error:";
      VStr ""]].
Proof.
  rewrite (getFromAPI_logs_empty_payload failing_api (sample_counter "" 1)
             "https://example.org/api/repos" (VObj ∅) ∅ (initial_world 1)
             network_error).
  - reflexivity.
  - reflexivity.
  - intros e [= <-]. reflexivity.
Defined.

(** [getRepos_invalid_bound_is_no_bound] on a page of three repos. *)
Lemma getRepos_invalid_bound_is_no_bound_example :
  getRepos (RT := sample_runtime) (paged_api [three_repos]) 2
    (sample_counter "yesterday" 1) "https://example.org/api/repos" None
    (initial_world 1)
  = getRepos (RT := sample_runtime) (paged_api [three_repos]) 2
      (sample_counter "yesterday" 1) "https://example.org/api/repos"
      (Some NaN) (initial_world 1).
Proof.
  apply (getRepos_invalid_bound_is_no_bound (RT := sample_runtime)
           (paged_api [three_repos]) 2 (sample_counter "yesterday" 1)
           "https://example.org/api/repos" (initial_world 1) (VArr three_repos)).
  reflexivity.
Defined.


(** [getRepos_requests_consecutive_pages] on a walk that starts at page 1. *)
Lemma getRepos_requests_consecutive_pages_example :
  let api := paged_api [full_page "2019-05-01"; short_page "2019-03-01"] in
  let this := sample_counter "" 1 in
  exists n k : nat,
    (n <= 5)%nat
    /\ (k = n \/ S k = n)
    /\ requests (snd (getRepos (RT := sample_runtime) api 5 this
                        (reposEndpoint this) None (initial_world 1)))
       = requests (initial_world 1)
         ++ page_requests this (reposEndpoint this) (params (initial_world 1)) 1 n
    /\ params (snd (getRepos (RT := sample_runtime) api 5 this
                      (reposEndpoint this) None (initial_world 1)))
       = <["page" := VInt (1 + Z.of_nat k)]> (params (initial_world 1))
    /\ (forall v,
          fst (getRepos (RT := sample_runtime) api 5 this (reposEndpoint this)
                 None (initial_world 1)) = Normal v -> S k = n).
Proof.
  cbv zeta.
  apply (getRepos_requests_consecutive_pages (RT := sample_runtime)
           (paged_api [full_page "2019-05-01"; short_page "2019-03-01"]) 5
           (sample_counter "" 1) (reposEndpoint (sample_counter "" 1)) None
           (initial_world 1) 1).
  reflexivity.
Defined.

(** [getRepos_never_ends_on_full_pages] with a client that answers every
    request with the same 100 repos. *)
Lemma getRepos_never_ends_on_full_pages_example :
  fst (getRepos (RT := sample_runtime)
         (constant_api (ok_response (VArr (full_page "2019-05-01")))) 6
         (sample_counter "" 1) "https://example.org/api/repos" None
         (initial_world 1))
  = Stuck OutOfFuel.
Proof.
  apply (getRepos_never_ends_on_full_pages (RT := sample_runtime)
           (constant_api (ok_response (VArr (full_page "2019-05-01")))) 6
           (sample_counter "" 1) "https://example.org/api/repos" None
           (initial_world 1)).
  - exists (Int 1). reflexivity.
  - intros history options.
    exists (ok_response (VArr (full_page "2019-05-01"))), (full_page "2019-05-01").
    repeat split; reflexivity.
Defined.

(** [getRepos_failure_truncates] with a client that serves two full pages
    and rejects the third request. *)
Lemma getRepos_failure_truncates_example :
  let api := failing_after 2
               (paged_api [full_page "2019-05-01"; full_page "2019-04-01";
                           short_page "2019-03-01"]) in
  let run := getRepos (RT := sample_runtime) api 5 (sample_counter "" 1)
               "https://example.org/api/repos" None (initial_world 1) in
  repos_length (fst run) = Some 200%nat
  /\ length (requests (snd run)) = 3%nat
  /\ console (snd run)
     = [[VStr "   SampleCounter -";
         VStr "Failed call to https://example.org/api/repos with error:";
         VStr "Internal Server Error"]].
Proof.
  cbv zeta.
  rewrite (getRepos_failure_truncates (RT := sample_runtime)
             (failing_after 2
                (paged_api [full_page "2019-05-01"; full_page "2019-04-01";
                            short_page "2019-03-01"]))
             5 (sample_counter "" 1) "https://example.org/api/repos" None
             (initial_world 1) 1
             [full_page "2019-05-01"; full_page "2019-04-01"]
             (http_error 500 (VStr "Internal Server Error"))).
  - cbn [fst snd repos_length requests console]. repeat split; reflexivity.
  - reflexivity.
  - simpl. lia.
  - repeat constructor.
  - intros k items Hk.
    destruct k as [|[|k]]; [| |discriminate Hk];
      injection Hk as <-; eexists; split; reflexivity.
  - reflexivity.
Defined.

(** [get_repeatable_without_paging] on a listing of one short page. *)
Lemma get_repeatable_without_paging_example :
  let api := paged_api [three_repos] in
  let this := sample_counter "" 3 in
  fst (get (RT := sample_runtime) api commits_field 3 this
         (snd (get (RT := sample_runtime) api commits_field 3 this
                 (initial_world 1))))
  = fst (get (RT := sample_runtime) api commits_field 3 this (initial_world 1)).
Proof.
  cbv zeta.
  apply (get_repeatable_without_paging (RT := sample_runtime)
           (paged_api [three_repos]) commits_field 3 (sample_counter "" 3)
           (initial_world 1)).
  - intros history history' options. reflexivity.
  - reflexivity.
Defined.

(** [getRepos_object_page_raises] on a client whose first body is an
    object of [length] 100 and which rejects the second request: two
    requests, one diagnostic line, and the TypeError of [repos.concat]. *)
Lemma getRepos_object_page_raises_example :
  let api := failing_after 1 (constant_api (ok_response object_page)) in
  let this := sample_counter "" 1 in
  let run := getRepos (RT := sample_runtime) api 3 this (reposEndpoint this)
               None (initial_world 1) in
  fst run = Throw (TypeError "repos.concat is not a function")
  /\ (forall v, fst run <> Normal v)
  /\ length (requests (snd run)) = 2%nat
  /\ length (console (snd run)) = 1%nat.
Proof.
  cbv zeta. split; [reflexivity|]. split; [|split; reflexivity].
  refine (proj1 (getRepos_object_page_raises (RT := sample_runtime)
                   (failing_after 1 (constant_api (ok_response object_page)))
                   2 (sample_counter "" 1) (reposEndpoint (sample_counter "" 1))
                   (initial_world 1)
                   (snd (getFromAPI
                           (failing_after 1 (constant_api (ok_response object_page)))
                           (sample_counter "" 1)
                           (reposEndpoint (sample_counter "" 1))
                           (VObj (params (initial_world 1))) ∅ (initial_world 1)))
                   {[ "length" := VInt 100 ]} _ _)); reflexivity.
Defined.
